(** * Booking system micro-services: a shallow embedding of the REST handlers

    The four Express services (booking, payment, notification, user) keep
    one SQLite table each.  A table is embedded as the list of its rows in
    rowid order, a handler as a function from the request, the table state
    and an environment record to a response, the outbound HTTP calls and
    the new state.  The environment carries what a handler reads from
    outside: the clock behind CURRENT_TIMESTAMP, the [err] argument the
    driver hands to a callback that inspects it, and the draws of
    [Math.random] and [uuidv4]. *)

From Stdlib Require Import ZArith List String Ascii Bool Lia PrimFloat.

Set Warnings "-inexact-float".
Open Scope string_scope.
Open Scope Z_scope.
Import ListNotations.
Open Scope list_scope.

(** ** Request values and the validators of express-validator *)

(** A JSON body field or route parameter that a handler treats as a number,
    as far as it is a single value: absent; an integer, sent as a number or
    as its decimal text, which JS and SQLite read as the same integer as
    long as a double holds it exactly ([safe_integer] below); or any other
    single value (a fraction, other text, a boolean, null, an object), kept
    as sent.  A field sent as an array is not represented: express-validator
    checks an array element by element, so the empty array passes every
    chain. *)
Inductive jvalue : Type :=
| JUndefined
| JInt (z : Z)
| JOther (raw : string).

(** [isInt({ min, max })] on a single value: the field is an integer literal
    within the bounds.  An absent field is the empty string to the
    validator, so it fails. *)
Definition isInt (min : Z) (max : option Z) (v : jvalue) : bool :=
  match v with
  | JInt z => (min <=? z) && match max with Some m => z <=? m | None => true end
  | _ => false
  end.

(** [.optional()]: the chain is skipped when the field is [undefined]. *)
Definition optional (check : jvalue -> bool) (v : jvalue) : bool :=
  match v with
  | JUndefined => true
  | _ => check v
  end.

(** The number a validated integer field stands for in arithmetic and
    comparisons; only evaluated on fields that passed [isInt]. *)
Definition toNumber (v : jvalue) : Z :=
  match v with
  | JInt z => z
  | _ => 0
  end.

(** The integers of [Number.MIN_SAFE_INTEGER .. Number.MAX_SAFE_INTEGER].
    Beyond them a JSON number is rounded when the body is parsed, a decimal
    text beyond 64 bits is stored by SQLite as a REAL, and the driver hands
    a stored integer back as a double; within them the integer a field
    stands for is the integer stored and read back. *)
Definition safe_integer (v : jvalue) : Prop :=
  match v with
  | JInt z => Z.abs z <= 9007199254740991
  | _ => True
  end.

(** A destructuring default, [const { field = dflt } = req.body]. *)
Definition withDefault (dflt : Z) (v : jvalue) : Z :=
  match v with
  | JUndefined => dflt
  | _ => toNumber v
  end.

(** [validationResult(req)] as the names of the fields whose chain failed,
    in the order the chains are declared. *)
Fixpoint validationResult (chains : list (string * bool)) : list string :=
  match chains with
  | [] => []
  | (field, ok) :: rest =>
      if ok then validationResult rest else field :: validationResult rest
  end.

Definition isEmpty (errors : list string) : bool :=
  match errors with
  | [] => true
  | _ :: _ => false
  end.

(** JS numbers are IEEE 754 doubles; an integer below 2^53 converts exactly. *)
Fixpoint float_of_pos (p : positive) : float :=
  match p with
  | xH => 1%float
  | xO q => (2 * float_of_pos q)%float
  | xI q => (2 * float_of_pos q + 1)%float
  end.

Definition float_of_Z (z : Z) : float :=
  match z with
  | Z0 => 0%float
  | Zpos p => float_of_pos p
  | Zneg p => (- float_of_pos p)%float
  end.

(** ** Booking service *)

Module Booking.

(** A row of [services]. *)
Record service : Type := mkService {
  service_id : Z;
  service_name : string;
  service_type : string;
  service_description : string;
  price : float;
  available_slots : Z;
  service_location : string;
  image_url : string;
  service_created_at : Z
}.

(** A row of [bookings]. *)
Record booking : Type := mkBooking {
  booking_id : Z;
  user_id : Z;
  booking_service_id : Z;
  booking_date : string;
  guests : Z;
  total_amount : float;
  status : string;
  payment_status : string;
  created_at : Z;
  updated_at : Z
}.

(** The database file: both tables and the AUTOINCREMENT counter of
    [bookings]. *)
Record db : Type := mkDb {
  services : list service;
  bookings : list booking;
  bookings_seq : Z
}.

(** The body of POST /bookings. *)
Record request : Type := mkRequest {
  req_userId : jvalue;
  req_serviceId : jvalue;
  req_bookingDate : string;
  req_guests : jvalue
}.

Inductive body : Type :=
| ValidationErrors (errors : list string)
| Error (error : string)
| BookingCreated (message : string) (bookingId : Z) (totalAmount : float).

Record response : Type := mkResponse {
  code : Z;
  json : body
}.

(** The POST to the notification service's /send. *)
Record notification : Type := mkNotification {
  n_userId : Z;
  n_type : string;
  n_bookingId : Z;
  n_message : string
}.

Record env : Type := mkEnv {
  now : Z;
  select_err : bool;
  insert_err : bool
}.

Definition set_available_slots (s : service) (n : Z) : service :=
  mkService (service_id s) (service_name s) (service_type s)
    (service_description s) (price s) n (service_location s) (image_url s)
    (service_created_at s).

(** SELECT * FROM services WHERE id = ? *)
Definition select_service (serviceId : Z) (rows : list service)
  : option service :=
  find (fun s => service_id s =? serviceId) rows.

(** UPDATE services SET available_slots = available_slots - ? WHERE id = ? *)
Definition update_slots (guests serviceId : Z) (rows : list service)
  : list service :=
  map (fun s =>
         if service_id s =? serviceId
         then set_available_slots s (available_slots s - guests)
         else s) rows.

Section Handler.

(** validator.js's date check, not part of the repository. *)
Variable isISO8601 : string -> bool.

Definition validate (req : request) : list string :=
  validationResult
    [ ("userId", isInt 1 None (req_userId req));
      ("serviceId", isInt 1 None (req_serviceId req));
      ("bookingDate", isISO8601 (req_bookingDate req));
      ("guests", optional (isInt 1 (Some 10)) (req_guests req)) ].

(** POST /bookings.  Nothing in the body throws, so the outer [catch] and
    its 500 are not reached; the UPDATE has no callback and the POST to the
    notification service only logs a failure. *)
Definition post_bookings (e : env) (req : request) (d : db)
  : response * list notification * db :=
  let errors := validate req in
  if negb (isEmpty errors) then
    (mkResponse 400 (ValidationErrors errors), [], d)
  else
    let userId := toNumber (req_userId req) in
    let serviceId := toNumber (req_serviceId req) in
    let bookingDate := req_bookingDate req in
    let guests := withDefault 1 (req_guests req) in
    if select_err e then
      (mkResponse 500 (Error "Database error"), [], d)
    else
      match select_service serviceId (services d) with
      | None => (mkResponse 404 (Error "Service not found"), [], d)
      | Some service =>
          if available_slots service <? guests then
            (mkResponse 400 (Error "Not enough available slots"), [], d)
          else
            let totalAmount := (price service * float_of_Z guests)%float in
            if insert_err e then
              (mkResponse 500 (Error "Failed to create booking"), [], d)
            else
              let lastID := bookings_seq d + 1 in
              let row :=
                mkBooking lastID userId serviceId bookingDate guests
                  totalAmount "pending" "pending" (now e) (now e) in
              (mkResponse 201
                 (BookingCreated "Booking created successfully" lastID
                    totalAmount),
               [ mkNotification userId "booking_created" lastID
                   ("Your booking for " ++ service_name service
                      ++ " has been created successfully.")%string ],
               mkDb (update_slots guests serviceId (services d))
                 (bookings d ++ [row]) lastID)
      end.

(** A run of requests handled one after the other. *)
Fixpoint run (ops : list (env * request)) (d : db) : db :=
  match ops with
  | [] => d
  | (e, req) :: rest => run rest (snd (post_bookings e req d))
  end.

End Handler.

(** What the primary key of [services] and the claimed bound on the
    capacity say of a database, and the capacity a lookup by id shows. *)
Definition primary_key (d : db) : Prop :=
  NoDup (map service_id (services d)).

Definition capacity_ok (d : db) : Prop :=
  Forall (fun s => 0 <= available_slots s) (services d).

Definition slots_of (k : Z) (d : db) : option Z :=
  option_map available_slots (select_service k (services d)).

(** A party size that is supplied, as a single value, and is no integer from
    1 to 10. *)
Definition out_of_range (v : jvalue) : Prop :=
  match v with
  | JUndefined => False
  | JInt z => z < 1 \/ 10 < z
  | JOther _ => True
  end.

(** The rows inserted at start-up when [services] is empty; ids and the
    column default [available_slots = 100] are given by SQLite. *)
Definition sampleService (k : Z) (name type description : string)
  (price : float) (location image_url : string) : service :=
  mkService k name type description price 100 location image_url 0.

Definition sampleServices : list service :=
  [ sampleService 1 "Luxury Beach Resort" "hotel"
      "Beautiful beachfront resort with stunning ocean views" 299.99
      "Maldives"
      "https://images.pexels.com/photos/189296/pexels-photo-189296.jpeg";
    sampleService 2 "Mountain Cabin Retreat" "hotel"
      "Cozy cabin in the mountains perfect for relaxation" 149.99
      "Colorado"
      "https://images.pexels.com/photos/338504/pexels-photo-338504.jpeg";
    sampleService 3 "Flight to Paris" "flight"
      "Direct flight to the city of lights" 599.99
      "Paris, France"
      "https://images.pexels.com/photos/358319/pexels-photo-358319.jpeg";
    sampleService 4 "Tech Conference 2024" "event"
      "Annual technology conference with industry leaders" 199.99
      "San Francisco"
      "https://images.pexels.com/photos/1181396/pexels-photo-1181396.jpeg";
    sampleService 5 "Music Festival Weekend" "event"
      "Three-day music festival featuring top artists" 249.99
      "Austin, Texas"
      "https://images.pexels.com/photos/1105666/pexels-photo-1105666.jpeg";
    sampleService 6 "Tokyo Adventure" "flight"
      "Experience the vibrant culture of Tokyo" 899.99
      "Tokyo, Japan"
      "https://images.pexels.com/photos/2506923/pexels-photo-2506923.jpeg" ].

Definition seeded : db := mkDb sampleServices [] 0.

(** Sample traffic used to exercise the handler. *)
Definition anyDate (_ : string) : bool := true.

Definition quiet : env := mkEnv 1700000000 false false.

Definition book (serviceId : Z) (guests : jvalue) : request :=
  mkRequest (JInt 7) (JInt serviceId) "2024-06-01" guests.

(** A catalog row with three places left. *)
Definition nearlyFull : db :=
  mkDb [ set_available_slots (sampleService 1 "Luxury Beach Resort" "hotel"
           "" 299.99 "Maldives" "") 3 ] [] 0.

(** *** The other routes of the booking service *)

(** What the routes below answer: validation errors, [{ error }],
    [{ message }], a [services] row, or a [bookings] row joined with the
    name, type, location and image of its service. *)
Inductive answer : Type :=
| Errors (errors : list string)
| Failure (error : string)
| Done (message : string)
| ServiceRow (s : service)
| BookingRow (b : booking) (service_name service_type location image_url
                              : string).

Record reply : Type := mkReply {
  reply_code : Z;
  reply_json : answer
}.

(** The clock and the driver's [err] for a route that runs one UPDATE. *)
Record update_env : Type := mkUpdateEnv {
  at_time : Z;
  update_err : bool
}.

(** [WHERE id = ?] with the route parameter bound as text.  SQLite gives the
    text the INTEGER affinity of the key before it compares: [JInt z] stands
    for a text it reads as the integer [z] (1, and also 1.0 or 1e0), which
    equals the key [z], and [JOther] for a text it reads as no integer,
    which equals no key. *)
Definition where_id (param : jvalue) (k : Z) : bool :=
  match param with
  | JInt z => k =? z
  | _ => false
  end.

(** GET /services/:id *)
Definition get_service (e : env) (param : jvalue) (d : db) : reply :=
  if select_err e then mkReply 500 (Failure "Database error")
  else
    match find (fun s => where_id param (service_id s)) (services d) with
    | None => mkReply 404 (Failure "Service not found")
    | Some row => mkReply 200 (ServiceRow row)
    end.

(** FROM bookings b JOIN services s ON b.service_id = s.id *)
Definition joined (bs : list booking) (ss : list service)
  : list (booking * service) :=
  flat_map (fun b =>
              map (pair b)
                (filter (fun s => service_id s =? booking_service_id b) ss))
    bs.

(** GET /bookings/:id *)
Definition get_booking (e : env) (param : jvalue) (d : db) : reply :=
  if select_err e then mkReply 500 (Failure "Database error")
  else
    match find (fun row => where_id param (booking_id (fst row)))
            (joined (bookings d) (services d)) with
    | None => mkReply 404 (Failure "Booking not found")
    | Some (b, s) =>
        mkReply 200
          (BookingRow b (service_name s) (service_type s) (service_location s)
             (image_url s))
    end.

Definition set_status (b : booking) (v : string) (t : Z) : booking :=
  mkBooking (booking_id b) (user_id b) (booking_service_id b) (booking_date b)
    (guests b) (total_amount b) v (payment_status b) (created_at b) t.

Definition set_payment_status (b : booking) (v : string) (t : Z) : booking :=
  mkBooking (booking_id b) (user_id b) (booking_service_id b) (booking_date b)
    (guests b) (total_amount b) (status b) v (created_at b) t.

(** UPDATE bookings SET column = ?, updated_at = CURRENT_TIMESTAMP
    WHERE id = ?, answered the way both status routes answer it. *)
Definition update_booking (set : booking -> string -> Z -> booking)
  (failed updated : string) (e : update_env) (param : jvalue) (v : string)
  (d : db) : reply * db :=
  if update_err e then (mkReply 500 (Failure failed), d)
  else
    let changes :=
      Z.of_nat
        (List.length
           (filter (fun b => where_id param (booking_id b)) (bookings d))) in
    let rows :=
      map (fun b => if where_id param (booking_id b)
                    then set b v (at_time e) else b) (bookings d) in
    if changes =? 0 then
      (mkReply 404 (Failure "Booking not found"),
       mkDb (services d) rows (bookings_seq d))
    else
      (mkReply 200 (Done updated), mkDb (services d) rows (bookings_seq d)).

(** PUT /bookings/:id/status *)
Definition put_status (e : update_env) (param : jvalue) (req_status : string)
  (d : db) : reply * db :=
  let errors :=
    validationResult
      [ ("status",
          existsb (String.eqb req_status)
            ["pending"; "confirmed"; "cancelled"; "completed"]) ] in
  if negb (isEmpty errors) then (mkReply 400 (Errors errors), d)
  else
    update_booking set_status "Failed to update booking"
      "Booking status updated successfully" e param req_status d.

(** PUT /bookings/:id/payment-status *)
Definition put_payment_status (e : update_env) (param : jvalue)
  (req_paymentStatus : string) (d : db) : reply * db :=
  let errors :=
    validationResult
      [ ("paymentStatus",
          existsb (String.eqb req_paymentStatus)
            ["pending"; "completed"; "failed"; "refunded"]) ] in
  if negb (isEmpty errors) then (mkReply 400 (Errors errors), d)
  else
    update_booking set_payment_status "Failed to update payment status"
      "Payment status updated successfully" e param req_paymentStatus d.

(** One request to the service, and requests handled one after the other. *)
Inductive call : Type :=
| Create (e : env) (req : request)
| SetStatus (e : update_env) (param : jvalue) (status : string)
| SetPaymentStatus (e : update_env) (param : jvalue) (paymentStatus : string).

Definition step (isISO8601 : string -> bool) (c : call) (d : db) : db :=
  match c with
  | Create e req => snd (post_bookings isISO8601 e req d)
  | SetStatus e param v => snd (put_status e param v d)
  | SetPaymentStatus e param v => snd (put_payment_status e param v d)
  end.

Definition run_calls (isISO8601 : string -> bool) (cs : list call) (d : db)
  : db :=
  fold_left (fun acc c => step isISO8601 c acc) cs d.

(** AUTOINCREMENT: no row of [bookings] has an id above the counter, and no
    two rows share an id. *)
Definition ids_issued (d : db) : Prop :=
  Forall (fun b => booking_id b <= bookings_seq d) (bookings d) /\
  NoDup (map booking_id (bookings d)).

(** The places held by the bookings of one service, whatever their status. *)
Definition booked (k : Z) (d : db) : Z :=
  fold_right Z.add 0
    (map guests (filter (fun b => booking_service_id b =? k) (bookings d))).

(** All columns of a booking but the two statuses and [updated_at]. *)
Definition booking_core (b : booking)
  : Z * Z * Z * string * Z * float * Z :=
  (booking_id b, user_id b, booking_service_id b, booking_date b, guests b,
   total_amount b, created_at b).

Definition steady : update_env := mkUpdateEnv 1700000900 false.

(** The seed data after a booking for two and a booking for four. *)
Definition twoBooked : db :=
  run_calls anyDate
    [ Create quiet (book 1 (JInt 2)); Create quiet (book 3 (JInt 4)) ] seeded.

(** All columns of a service but [available_slots]. *)
Definition service_core (s : service)
  : Z * string * string * string * float * string * string * Z :=
  (service_id s, service_name s, service_type s, service_description s,
   price s, service_location s, image_url s, service_created_at s).

End Booking.


(** ** Payment service *)

Module Payment.

(** The JSON object kept as text in [gateway_response], before
    [JSON.stringify]. *)
Inductive gateway_json : Type :=
| GatewayResult (success : bool) (transactionId : option string)
    (message : string)
| GatewayError (error : string)
| Refund (refundId reason : string) (refundedAt : Z).

(** A row of [payments]. *)
Record payment : Type := mkPayment {
  id : Z;
  payment_id : string;
  booking_id : Z;
  user_id : Z;
  amount : float;
  currency : string;
  payment_method : string;
  status : string;
  gateway_response : option gateway_json;
  transaction_id : option string;
  created_at : Z;
  updated_at : Z
}.

Record db : Type := mkDb {
  payments : list payment;
  payments_seq : Z
}.

(** A dummy gateway: its display name, the share of draws it declines, the
    prefix of its transaction ids and its two messages. *)
Record gateway : Type := mkGateway {
  name : string;
  decline_rate : float;
  prefix : string;
  accepted : string;
  declined : string
}.

Definition stripe : gateway :=
  mkGateway "Stripe" 0.05 "stripe_" "Payment processed successfully"
    "Payment failed - insufficient funds".

Definition paypal : gateway :=
  mkGateway "PayPal" 0.03 "pp_" "PayPal payment successful"
    "PayPal payment declined".

Definition square : gateway :=
  mkGateway "Square" 0.07 "sq_" "Square payment completed"
    "Square payment error".

(** [paymentGateways[paymentMethod]] *)
Definition paymentGateways (paymentMethod : string) : option gateway :=
  if String.eqb paymentMethod "stripe" then Some stripe
  else if String.eqb paymentMethod "paypal" then Some paypal
  else if String.eqb paymentMethod "square" then Some square
  else None.

Record result : Type := mkResult {
  success : bool;
  transactionId : option string;
  message : string
}.

(** [gateway.process]: one draw of [Math.random] and one of [uuidv4]. *)
Definition process (g : gateway) (random : float) (uuid : string) : result :=
  let success := (decline_rate g <? random)%float in
  mkResult success
    (if success then Some (prefix g ++ uuid)%string else None)
    (if success then accepted g else declined g).

(** The body of POST /process. *)
Inductive jobject : Type :=
| NoObject
| AnObject
| NotAnObject.

Record request : Type := mkRequest {
  req_bookingId : jvalue;
  req_userId : jvalue;
  req_amount : option float;
  req_paymentMethod : string;
  req_cardDetails : jobject
}.

Inductive body : Type :=
| ValidationErrors (errors : list string)
| Error (error : string)
| Paid (paymentId : string) (transactionId : option string)
    (message : string) (amount : float) (status : string)
| NotPaid (paymentId message status : string)
| Refunded (refundId message : string) (amount : float)
| NotRefunded (message : string).

Record response : Type := mkResponse {
  code : Z;
  json : body
}.

(** The calls to the booking and the notification service. *)
Inductive outbound : Type :=
| PutPaymentStatus (bookingId : Z) (paymentStatus : string)
| PostSend (userId : Z) (type : string) (bookingId : Z) (paymentId : string)
    (amount : option float) (message : string).

Record env : Type := mkEnv {
  now : Z;
  later : Z;
  uuid_payment : string;
  uuid_gateway : string;
  random : float;
  select_err : bool;
  insert_err : bool;
  update_err : bool;
  booking_up : bool
}.

(** [isFloat({ min })]: the field is a decimal literal, sent as a number or
    as text, that [parseFloat] reads as at least [min] ([Some x] with the
    value read, which is infinite for a text such as 1e999); [None] is an
    absent field or one whose text is no decimal literal. *)
Definition isFloat (min : float) (v : option float) : bool :=
  match v with
  | Some x => (min <=? x)%float
  | None => false
  end.

Definition isIn (allowed : list string) (v : string) : bool :=
  existsb (String.eqb v) allowed.

(** [.optional().isObject()] *)
Definition optionalObject (v : jobject) : bool :=
  match v with
  | NotAnObject => false
  | _ => true
  end.

Definition validate (req : request) : list string :=
  validationResult
    [ ("bookingId", isInt 1 None (req_bookingId req));
      ("userId", isInt 1 None (req_userId req));
      ("amount", isFloat 0.01 (req_amount req));
      ("paymentMethod",
        isIn ["stripe"; "paypal"; "square"] (req_paymentMethod req));
      ("cardDetails", optionalObject (req_cardDetails req)) ].

Definition set_outcome (p : payment) (status : string) (response : gateway_json)
  (transaction : option string) (t : Z) : payment :=
  mkPayment (id p) (payment_id p) (booking_id p) (user_id p) (amount p)
    (currency p) (payment_method p) status (Some response) transaction
    (created_at p) t.

(** UPDATE payments SET status = ?, gateway_response = ?,
    transaction_id = ?, updated_at = CURRENT_TIMESTAMP WHERE id = ? *)
Definition update_by_id (status : string) (response : gateway_json)
  (transaction : option string) (t rowid : Z) (rows : list payment)
  : list payment :=
  map (fun p =>
         if id p =? rowid then set_outcome p status response transaction t
         else p) rows.

(** UPDATE payments SET status = ?, gateway_response = ?,
    updated_at = CURRENT_TIMESTAMP WHERE id = ? or WHERE payment_id = ? *)
Definition update_where (hit : payment -> bool) (status : string)
  (response : gateway_json) (t : Z) (rows : list payment) : list payment :=
  map (fun p =>
         if hit p then set_outcome p status response (transaction_id p) t
         else p) rows.

(** SELECT * FROM payments WHERE payment_id = ? AND status = "completed" *)
Definition select_completed (paymentId : string) (rows : list payment)
  : option payment :=
  find (fun p => String.eqb (payment_id p) paymentId
                 && String.eqb (status p) "completed") rows.

Definition toFloat (v : option float) : float :=
  match v with
  | Some x => x
  | None => nan
  end.

Section Handlers.

(** The text a template literal gives a number. *)
Variable numberToString : float -> string.

(** POST /process.  [payment_id] is UNIQUE, so the INSERT also fails on a
    repeated uuid.  An undefined gateway makes [gateway.process] throw, which
    the handler catches. *)
Definition post_process (e : env) (req : request) (d : db)
  : response * list outbound * db :=
  let errors := validate req in
  if negb (isEmpty errors) then
    (mkResponse 400 (ValidationErrors errors), [], d)
  else
    let bookingId := toNumber (req_bookingId req) in
    let userId := toNumber (req_userId req) in
    let amount := toFloat (req_amount req) in
    let paymentMethod := req_paymentMethod req in
    let paymentId := uuid_payment e in
    if insert_err e
       || existsb (fun p => String.eqb (payment_id p) paymentId) (payments d)
    then (mkResponse 500 (Error "Failed to create payment record"), [], d)
    else
      let paymentRecordId := payments_seq d + 1 in
      let row :=
        mkPayment paymentRecordId paymentId bookingId userId amount "USD"
          paymentMethod "pending" None None (now e) (now e) in
      let rows := payments d ++ [row] in
      match paymentGateways paymentMethod with
      | None =>
          (mkResponse 500 (NotPaid paymentId "Payment gateway error" "failed"),
           [],
           mkDb (update_where (fun p => id p =? paymentRecordId) "failed"
                   (GatewayError
                      "Cannot read properties of undefined (reading 'process')")
                   (later e) rows)
             paymentRecordId)
      | Some gateway =>
          let result := process gateway (random e) (uuid_gateway e) in
          let status := if success result then "completed" else "failed" in
          let gatewayResponse :=
            GatewayResult (success result) (transactionId result)
              (message result) in
          let rows' :=
            if update_err e then rows
            else update_by_id status gatewayResponse (transactionId result)
                   (later e) paymentRecordId rows in
          if success result then
            (mkResponse 200
               (Paid paymentId (transactionId result) (message result) amount
                  "completed"),
             PutPaymentStatus bookingId "completed"
               :: (if booking_up e then
                     [ PostSend userId "payment_success" bookingId paymentId
                         (Some amount)
                         ("Payment of $" ++ numberToString amount
                            ++ " processed successfully via " ++ name gateway
                            ++ ".")%string ]
                   else []),
             mkDb rows' paymentRecordId)
          else
            (mkResponse 400 (NotPaid paymentId (message result) "failed"),
             PutPaymentStatus bookingId "failed"
               :: (if booking_up e then
                     [ PostSend userId "payment_failed" bookingId paymentId
                         None ("Payment failed: " ++ message result)%string ]
                   else []),
             mkDb rows' paymentRecordId)
      end.

(** POST /refund/:paymentId.  The handler never reads [validationResult], so
    the chain on [reason] decides nothing; an absent reason takes the
    default.  The answer is sent without waiting for the UPDATE. *)
Definition post_refund (e : env) (paymentId : string)
  (req_reason : option string) (d : db) : response * list outbound * db :=
  let reason :=
    match req_reason with
    | Some r => r
    | None => "Customer request"
    end in
  if select_err e then (mkResponse 500 (Error "Database error"), [], d)
  else
    match select_completed paymentId (payments d) with
    | None =>
        (mkResponse 404 (Error "Payment not found or not eligible for refund"),
         [], d)
    | Some payment =>
        let refundSuccess := (0.1 <? random e)%float in
        let refundId := ("refund_" ++ uuid_gateway e)%string in
        if refundSuccess then
          (mkResponse 200
             (Refunded refundId "Refund processed successfully"
                (amount payment)),
           (if update_err e then []
            else
              PutPaymentStatus (booking_id payment) "refunded"
                :: (if booking_up e then
                      [ PostSend (user_id payment) "payment_refunded"
                          (booking_id payment) paymentId
                          (Some (amount payment))
                          ("Refund of $" ++ numberToString (amount payment)
                             ++ " has been processed. Reason: " ++ reason)%string ]
                    else [])),
           (if update_err e then d
            else
              mkDb (update_where
                      (fun p => String.eqb (payment_id p) paymentId)
                      "refunded" (Refund refundId reason (now e)) (now e)
                      (payments d))
                (payments_seq d)))
        else
          (mkResponse 400 (NotRefunded "Refund processing failed"), [], d)
    end.

End Handlers.

(** Sample data used to exercise the handlers. *)
Definition showNumber (_ : float) : string := "59.98".

Definition paidRow : payment :=
  mkPayment 1 "pay-1" 12 7 59.98 "USD" "stripe" "completed"
    (Some (GatewayResult true (Some "stripe_t1")
             "Payment processed successfully"))
    (Some "stripe_t1") 1700000000 1700000001.

Definition onePaid : db := mkDb [paidRow] 1.

Definition lucky : env :=
  mkEnv 1700000100 1700000101 "pay-2" "u-2" 0.5 false false false true.

Definition unlucky : env :=
  mkEnv 1700000100 1700000101 "pay-2" "u-2" 0.05 false false false true.


(** *** Reading a payment, and runs of requests *)

Inductive answer : Type :=
| Failure (error : string)
| PaymentRow (row : payment).

Record reply : Type := mkReply {
  reply_code : Z;
  reply_json : answer
}.


(** One request that writes, and requests handled one after the other. *)
Inductive call : Type :=
| Process (e : env) (req : request)
| RefundOf (e : env) (paymentId : string) (reason : option string).

Definition step (numberToString : float -> string) (c : call) (d : db) : db :=
  match c with
  | Process e req => snd (post_process numberToString e req d)
  | RefundOf e paymentId reason =>
      snd (post_refund numberToString e paymentId reason d)
  end.

Definition run_calls (numberToString : float -> string) (cs : list call)
  (d : db) : db :=
  fold_left (fun acc c => step numberToString c acc) cs d.

(** AUTOINCREMENT and UNIQUE: no row has an id above the counter, and no two
    rows share an id or a payment id. *)
Definition keys_issued (d : db) : Prop :=
  Forall (fun p => id p <= payments_seq d) (payments d) /\
  NoDup (map id (payments d)) /\
  NoDup (map payment_id (payments d)).

(** The columns no UPDATE of the service names. *)
Definition payment_core (p : payment)
  : Z * string * Z * Z * float * string * string * Z :=
  (id p, payment_id p, booking_id p, user_id p, amount p, currency p,
   payment_method p, created_at p).

Definition byCard : request :=
  mkRequest (JInt 12) (JInt 7) (Some 59.98%float) "stripe" NoObject.

(** The sample payment after its refund. *)
Definition refundedRow : payment :=
  set_outcome paidRow "refunded"
    (Refund "refund_u-2" "Customer request" 1700000100) (Some "stripe_t1")
    1700000100.

Definition oneRefunded : db := mkDb [refundedRow] 1.

End Payment.

(** ** Notification service *)

Module Notification.

(** A row of [notifications]. *)
Record notification : Type := mkNotification {
  id : Z;
  user_id : Z;
  type : string;
  subject : string;
  message : string;
  booking_id : option Z;
  payment_id : option string;
  status : string;
  sent_at : Z;
  read_at : option Z
}.

Inductive body : Type :=
| Error (error : string)
| Message (message : string).

Record response : Type := mkResponse {
  code : Z;
  json : body
}.

Record env : Type := mkEnv {
  now : Z;
  update_err : bool
}.

Definition set_read_at (n : notification) (t : option Z) : notification :=
  mkNotification (id n) (user_id n) (type n) (subject n) (message n)
    (booking_id n) (payment_id n) (status n) (sent_at n) t.

(** [WHERE id = ?] with the route parameter bound as text.  SQLite gives the
    text the INTEGER affinity of the key before it compares: [JInt z] stands
    for a text it reads as the integer [z] (1, and also 1.0 or 1e0), which
    equals the key [z], and [JOther] for a text it reads as no integer,
    which equals no key. *)
Definition where_id (param : jvalue) (n : notification) : bool :=
  match param with
  | JInt z => id n =? z
  | _ => false
  end.

(** PUT /notifications/:id/read, running
    UPDATE notifications SET read_at = CURRENT_TIMESTAMP WHERE id = ? *)
Definition put_read (e : env) (param : jvalue) (rows : list notification)
  : response * list notification :=
  if update_err e then
    (mkResponse 500 (Error "Failed to mark notification as read"), rows)
  else
    let changes := Z.of_nat (List.length (filter (where_id param) rows)) in
    let rows' :=
      map (fun n => if where_id param n then set_read_at n (Some (now e))
                    else n) rows in
    if changes =? 0 then
      (mkResponse 404 (Error "Notification not found"), rows')
    else
      (mkResponse 200 (Message "Notification marked as read"), rows').

(** The column a reader of the log sees for one notification. *)
Definition read_at_of (k : Z) (rows : list notification) : option (option Z) :=
  option_map read_at (find (fun n => id n =? k) rows).

(** Sample data used to exercise the handler. *)
Definition unread : list notification :=
  [ mkNotification 1 7 "booking_created" "Booking Confirmation"
      "Your booking for Flight to Paris has been created successfully."
      (Some 12) None "sent" 1700000000 None ].

Definition at_ten : env := mkEnv 1700000010 false.

Definition at_twenty : env := mkEnv 1700000020 false.

(** *** Sending *)

(** A JSON body field that a handler treats as text: absent, a string, or
    anything else. *)
Inductive jtext : Type :=
| TUndefined
| TString (s : string)
| TOther.

Definition isString (v : jtext) : bool :=
  match v with
  | TString _ => true
  | _ => false
  end.

(** [paymentId || null]: an absent field and the empty string are stored as
    NULL. *)
Definition or_null (v : jtext) : option string :=
  match v with
  | TString s => if String.eqb s "" then None else Some s
  | _ => None
  end.

(** [bookingId || null] *)
Definition int_or_null (v : jvalue) : option Z :=
  match v with
  | JInt z => if z =? 0 then None else Some z
  | _ => None
  end.

(** The subject of each template; the rendered body goes to [sendEmail],
    which only writes it to the console. *)
Definition emailTemplates (type : string) : option string :=
  if String.eqb type "booking_created" then Some "🎉 Booking Confirmation"
  else if String.eqb type "payment_success" then Some "✅ Payment Successful"
  else if String.eqb type "payment_failed" then Some "❌ Payment Failed"
  else if String.eqb type "payment_refunded" then Some "💰 Refund Processed"
  else None.

(** The table with its AUTOINCREMENT counter. *)
Record log : Type := mkLog {
  rows : list notification;
  seq : Z
}.

(** The body of POST /send. *)
Record send_request : Type := mkSendRequest {
  req_userId : jvalue;
  req_type : string;
  req_message : jtext;
  req_bookingId : jvalue;
  req_paymentId : jtext
}.

Inductive answer : Type :=
| Errors (errors : list string)
| Failure (error : string)
| Sent (success : bool) (notificationId : Z) (message type recipient : string).

Record reply : Type := mkReply {
  reply_code : Z;
  reply_json : answer
}.

Record send_env : Type := mkSendEnv {
  sent_time : Z;
  random : float;
  insert_err : bool
}.

Definition validate (req : send_request) : list string :=
  validationResult
    [ ("userId", isInt 1 None (req_userId req));
      ("type",
        existsb (String.eqb (req_type req))
          ["booking_created"; "payment_success"; "payment_failed";
           "payment_refunded"]);
      ("message", isString (req_message req));
      ("bookingId", optional (isInt 1 None) (req_bookingId req));
      ("paymentId",
        match req_paymentId req with
        | TUndefined => true
        | v => isString v
        end) ].

Definition text (v : jtext) : string :=
  match v with
  | TString s => s
  | _ => ""
  end.

Section Send.

(** The text a template literal gives the user id. *)
Variable show : jvalue -> string.

(** POST /send.  [sendEmail] draws [Math.random] once; the row is stored
    whatever the draw. *)
Definition post_send (e : send_env) (req : send_request) (l : log)
  : reply * log :=
  let errors := validate req in
  if negb (isEmpty errors) then (mkReply 400 (Errors errors), l)
  else
    match emailTemplates (req_type req) with
    | None => (mkReply 400 (Failure "Invalid notification type"), l)
    | Some subject =>
        let userEmail := ("user" ++ show (req_userId req) ++ "@example.com")%string in
        let emailSent := (0.02 <? random e)%float in
        if insert_err e then
          (mkReply 500 (Failure "Failed to store notification"), l)
        else
          let lastID := seq l + 1 in
          (mkReply 200
             (Sent emailSent lastID
                (if emailSent then "Notification sent successfully"
                 else "Failed to send notification")
                (req_type req) userEmail),
           mkLog
             (rows l
                ++ [ mkNotification lastID (toNumber (req_userId req))
                       (req_type req) subject (text (req_message req))
                       (int_or_null (req_bookingId req))
                       (or_null (req_paymentId req))
                       (if emailSent then "sent" else "failed")
                       (sent_time e) None ])
             lastID)
    end.

End Send.

(** All columns of a notification but [read_at]. *)
Definition notification_core (n : notification)
  : Z * Z * string * string * string * option Z * option string * string * Z :=
  (id n, user_id n, type n, subject n, message n, booking_id n, payment_id n,
   status n, sent_at n).

(** Sample traffic. *)
Definition digits (v : jvalue) : string :=
  match v with
  | JInt 7 => "7"
  | _ => "0"
  end.

Definition created : send_request :=
  mkSendRequest (JInt 7) "booking_created" (TString "Your booking is in.")
    (JInt 12) TUndefined.

Definition paidFor : send_request :=
  mkSendRequest (JInt 7) "payment_success" (TString "Paid.") (JInt 12)
    (TString "pay-1").

Definition delivered : send_env := mkSendEnv 1700000300 0.5 false.

Definition bounced : send_env := mkSendEnv 1700000301 0.01 false.

Definition empty : log := mkLog [] 0.

End Notification.

(** ** User service *)

Module User.

(** A row of [users]. *)
Record user : Type := mkUser {
  id : Z;
  email : string;
  password : string;
  name : string;
  created_at : Z;
  updated_at : Z
}.

Record db : Type := mkDb {
  users : list user;
  users_seq : Z
}.

(** The payload of a session token. *)
Record claims : Type := mkClaims {
  userId : Z;
  claim_email : string;
  claim_name : string
}.

Inductive body : Type :=
| ValidationErrors (errors : list string)
| Error (error : string)
| Message (message : string)
| Registered (message token : string) (id : Z) (email name : string)
| Profile (id : Z) (email name : string) (created_at : Z).

Record response : Type := mkResponse {
  code : Z;
  json : body
}.

Record env : Type := mkEnv {
  now : Z;
  salt : string;
  select_err : bool;
  insert_err : bool;
  update_err : bool
}.

(** The body of POST /register; an absent field reads as the empty string,
    as the validators see it. *)
Record registration : Type := mkRegistration {
  reg_email : string;
  reg_password : string;
  reg_name : string
}.

(** PUT /profile: the Authorization header and the two optional fields. *)
Record profile_update : Type := mkProfileUpdate {
  authorization : option string;
  req_name : option string;
  req_email : option string
}.

(** [str.split(' ')] *)
Fixpoint split (s : string) : list string :=
  match s with
  | EmptyString => [EmptyString]
  | String c rest =>
      if Ascii.eqb c " " then EmptyString :: split rest
      else
        match split rest with
        | w :: ws => String c w :: ws
        | [] => [String c EmptyString]
        end
  end.

(** A byte that continues a UTF-8 character, and a text that begins with a
    variation selector (U+FE0E or U+FE0F). *)
Definition continuation (c : ascii) : bool :=
  match c with
  | Ascii _ _ _ _ _ _ b6 b7 => b7 && negb b6
  end.

Definition selector (s : string) : bool :=
  match s with
  | String a (String b (String c _)) =>
      Ascii.eqb a (ascii_of_nat 239) && Ascii.eqb b (ascii_of_nat 184)
      && (Ascii.eqb c (ascii_of_nat 142) || Ascii.eqb c (ascii_of_nat 143))
  | _ => false
  end.

(** The length validator.js measures: the UTF-16 units of the text less its
    surrogate pairs and its variation selectors, that is the characters of
    the UTF-8 text that are no variation selector. *)
Fixpoint characters (s : string) : nat :=
  match s with
  | EmptyString => 0%nat
  | String c rest =>
      if continuation c || selector s then characters rest
      else S (characters rest)
  end.

(** [isLength({ min })] *)
Definition isLength (min : nat) (s : string) : bool :=
  (min <=? characters s)%nat.

(** A string in a condition: the empty string is false. *)
Definition truthy (v : option string) : bool :=
  match v with
  | Some s => negb (String.eqb s "")
  | None => false
  end.

(** One [column = ?] of the SET clause with the value bound to it. *)
Inductive assignment : Type :=
| SetName (v : string)
| SetEmail (v : string)
| SetUpdatedAt (t : Z).

Definition assign (u : user) (a : assignment) : user :=
  match a with
  | SetName v => mkUser (id u) (email u) (password u) v (created_at u)
                   (updated_at u)
  | SetEmail v => mkUser (id u) v (password u) (name u) (created_at u)
                    (updated_at u)
  | SetUpdatedAt t => mkUser (id u) (email u) (password u) (name u)
                        (created_at u) t
  end.

(** UPDATE users SET ... WHERE id = ? *)
Definition update_user (updates : list assignment) (key : Z)
  (rows : list user) : list user :=
  map (fun u => if id u =? key then fold_left assign updates u else u) rows.

(** [email] is UNIQUE: the UPDATE fails when it would give the row the
    address of another row. *)
Definition breaks_unique (updates : list assignment) (key : Z)
  (rows : list user) : bool :=
  existsb (fun a =>
             match a with
             | SetEmail v =>
                 existsb (fun u => id u =? key) rows
                 && existsb (fun u => negb (id u =? key)
                                      && String.eqb (email u) v) rows
             | _ => false
             end) updates.

Section Handlers.

(** validator.js, bcryptjs and jsonwebtoken, which are not part of the
    repository; signing and verifying use the service's secret and the clock. *)
Variable isEmail : string -> bool.
Variable normalizeEmail : string -> string.
Variable trim : string -> string.
Variable bcrypt_hash : string -> string -> string.
Variable jwt_sign : claims -> Z -> string.
Variable jwt_verify : string -> Z -> option claims.

(** The middleware [authenticateToken]: the answer it sends, or the decoded
    payload it stores in [req.user]. *)
Definition authenticateToken (e : env) (authHeader : option string)
  : response + claims :=
  let token :=
    match authHeader with
    | Some h => if String.eqb h "" then None else nth_error (split h) 1
    | None => None
    end in
  match token with
  | None => inl (mkResponse 401 (Error "Access token required"))
  | Some t =>
      if String.eqb t "" then
        inl (mkResponse 401 (Error "Access token required"))
      else
        match jwt_verify t (now e) with
        | None => inl (mkResponse 403 (Error "Invalid or expired token"))
        | Some user => inr user
        end
  end.

(** POST /register; the sanitizers have replaced the address by its
    normalised form and the name by its trimmed form. *)
Definition post_register (e : env) (req : registration) (d : db)
  : response * db :=
  let errors :=
    validationResult
      [ ("email", isEmail (reg_email req));
        ("password", isLength 6 (reg_password req));
        ("name", isLength 2 (trim (reg_name req))) ] in
  if negb (isEmpty errors) then
    (mkResponse 400 (ValidationErrors errors), d)
  else
    let email' := normalizeEmail (reg_email req) in
    let password' := reg_password req in
    let name' := trim (reg_name req) in
    if select_err e then (mkResponse 500 (Error "Database error"), d)
    else
      match find (fun u => String.eqb (email u) email') (users d) with
      | Some row => (mkResponse 400 (Error "User already exists"), d)
      | None =>
          let hashedPassword := bcrypt_hash password' (salt e) in
          if insert_err e then
            (mkResponse 500 (Error "Failed to create user"), d)
          else
            let lastID := users_seq d + 1 in
            let token := jwt_sign (mkClaims lastID email' name') (now e) in
            (mkResponse 201
               (Registered "User created successfully" token lastID email'
                  name'),
             mkDb (users d
                     ++ [mkUser lastID email' hashedPassword name' (now e)
                           (now e)])
               lastID)
      end.

(** GET /profile *)
Definition get_profile (e : env) (authHeader : option string) (d : db)
  : response :=
  match authenticateToken e authHeader with
  | inl refusal => refusal
  | inr user =>
      if select_err e then mkResponse 500 (Error "Database error")
      else
        match find (fun u => id u =? userId user) (users d) with
        | None => mkResponse 404 (Error "User not found")
        | Some row =>
            mkResponse 200
              (Profile (id row) (email row) (name row) (created_at row))
        end
  end.

(** PUT /profile.  The driver's [err] is set by a fault or by the UNIQUE
    constraint; the number of rows changed is not looked at. *)
Definition put_profile (e : env) (req : profile_update) (d : db)
  : response * db :=
  match authenticateToken e (authorization req) with
  | inl refusal => (refusal, d)
  | inr user =>
      let errors :=
        validationResult
          [ ("name",
              match req_name req with
              | None => true
              | Some v => isLength 2 (trim v)
              end);
            ("email",
              match req_email req with
              | None => true
              | Some v => isEmail v
              end) ] in
      if negb (isEmpty errors) then
        (mkResponse 400 (ValidationErrors errors), d)
      else
        let name' := option_map trim (req_name req) in
        let email' := option_map normalizeEmail (req_email req) in
        let updates :=
          (if truthy name' then
             match name' with Some v => [SetName v] | None => [] end
           else [])
          ++ (if truthy email' then
                match email' with Some v => [SetEmail v] | None => [] end
              else []) in
        if (List.length updates =? 0)%nat then
          (mkResponse 400 (Error "No valid fields to update"), d)
        else
          let updates' := updates ++ [SetUpdatedAt (now e)] in
          if update_err e || breaks_unique updates' (userId user) (users d)
          then (mkResponse 500 (Error "Failed to update profile"), d)
          else
            (mkResponse 200 (Message "Profile updated successfully"),
             mkDb (update_user updates' (userId user) (users d))
               (users_seq d))
  end.

End Handlers.

(** Stand-ins for the three libraries, used to exercise the handlers. *)
Definition hasAt (s : string) : bool :=
  existsb (Ascii.eqb "@") (list_ascii_of_string s).

Definition asIs (s : string) : string := s.

Definition salted (pw salt : string) : string := (salt ++ "$" ++ pw)%string.

Definition sign (c : claims) (_ : Z) : string :=
  if userId c =? 1 then "token-1" else "token-5".

Definition verify (token : string) (_ : Z) : option claims :=
  if String.eqb token "token-1" then Some (mkClaims 1 "a@x.com" "Al")
  else if String.eqb token "token-5" then Some (mkClaims 5 "e@x.com" "Eve")
  else None.

Definition al : user := mkUser 1 "a@x.com" "s$secret1" "Al" 1700000000 1700000000.

Definition oneUser : db := mkDb [al] 1.

Definition calm : env := mkEnv 1700000500 "s" false false false.

Definition again : registration := mkRegistration "a@x.com" "secret2" "Al again".

Definition renameAl : profile_update :=
  mkProfileUpdate (Some "Bearer token-1") (Some "Bob") None.

(** A token issued to account 5, which the table does not hold. *)
Definition renameEve : profile_update :=
  mkProfileUpdate (Some "Bearer token-5") (Some "Eve B") None.

(** *** Logging in, and runs of requests *)

Section Login.

Variable isEmail : string -> bool.
Variable normalizeEmail : string -> string.
Variable bcrypt_compare : string -> string -> bool.
Variable jwt_sign : claims -> Z -> string.

(** POST /login; [exists()] asks that the password is not undefined. *)
Definition post_login (e : env) (req_email : string)
  (req_password : option string) (d : db) : response :=
  let errors :=
    validationResult
      [ ("email", isEmail req_email);
        ("password",
          match req_password with
          | Some _ => true
          | None => false
          end) ] in
  if negb (isEmpty errors) then mkResponse 400 (ValidationErrors errors)
  else
    let email' := normalizeEmail req_email in
    let password' :=
      match req_password with
      | Some v => v
      | None => ""
      end in
    if select_err e then mkResponse 500 (Error "Database error")
    else
      match find (fun u => String.eqb (email u) email') (users d) with
      | None => mkResponse 401 (Error "Invalid credentials")
      | Some user =>
          let isValidPassword := bcrypt_compare password' (password user) in
          if negb isValidPassword then
            mkResponse 401 (Error "Invalid credentials")
          else
            let token :=
              jwt_sign (mkClaims (id user) (email user) (name user)) (now e) in
            mkResponse 200
              (Registered "Login successful" token (id user) (email user)
                 (name user))
      end.

End Login.

(** One request that writes, and requests handled one after the other. *)
Inductive call : Type :=
| Register (e : env) (req : registration)
| Update (e : env) (req : profile_update).

Section Runs.

Variable isEmail : string -> bool.
Variable normalizeEmail : string -> string.
Variable trim : string -> string.
Variable bcrypt_hash : string -> string -> string.
Variable jwt_sign : claims -> Z -> string.
Variable jwt_verify : string -> Z -> option claims.

Definition step (c : call) (d : db) : db :=
  match c with
  | Register e req =>
      snd (post_register isEmail normalizeEmail trim bcrypt_hash jwt_sign
             e req d)
  | Update e req =>
      snd (put_profile isEmail normalizeEmail trim jwt_verify e req d)
  end.

Definition run_calls (cs : list call) (d : db) : db :=
  fold_left (fun acc c => step c acc) cs d.

End Runs.

(** AUTOINCREMENT and UNIQUE: no account has an id above the counter, and
    no two accounts share an id or an address. *)
Definition accounts_keyed (d : db) : Prop :=
  Forall (fun u => id u <= users_seq d) (users d) /\
  NoDup (map id (users d)) /\
  NoDup (map email (users d)).

(** A stand-in for [bcrypt.compare] that goes with [salted]. *)
Definition matches (pw hash : string) : bool := String.eqb hash ("s$" ++ pw).

Definition bea : registration := mkRegistration "b@x.com" "secret9" "Bea".

Definition moveAl : profile_update :=
  mkProfileUpdate (Some "Bearer token-1") None (Some "al@x.com").

(** A text without a space. *)
Fixpoint one_word (s : string) : bool :=
  match s with
  | EmptyString => true
  | String c rest => negb (Ascii.eqb c " ") && one_word rest
  end.

(** Four accounts, and the registration of a fifth. *)
Definition fourUsers : db :=
  mkDb
    [ al;
      mkUser 2 "b@x.com" "s$secret2" "Bo" 1700000001 1700000001;
      mkUser 3 "c@x.com" "s$secret3" "Cy" 1700000002 1700000002;
      mkUser 4 "d@x.com" "s$secret4" "Di" 1700000003 1700000003 ] 4.

Definition eve : registration := mkRegistration "e@x.com" "secret5" "Eve".

End User.

(** * Properties *)

(** ** Tables as lists: selecting and updating by key *)

Section Tables.

Variables (row : Type) (key : row -> Z).

Lemma find_key_In (k : Z) (rows : list row) (r : row) :
  find (fun x => key x =? k) rows = Some r -> In r rows /\ key r = k.
Proof.
  intro H. apply find_some in H. destruct H as [Hin Hk].
  split; [ exact Hin | now apply Z.eqb_eq ].
Qed.

(** With a primary key, the row a SELECT by key returns is the only row
    with that key. *)
Lemma find_key_unique (k : Z) (rows : list row) (r r' : row) :
  NoDup (map key rows) ->
  find (fun x => key x =? k) rows = Some r ->
  In r' rows -> key r' = k -> r' = r.
Proof.
  induction rows as [|x rows IH]; simpl; intros Hnd Hfind Hin Hk.
  - contradiction.
  - inversion Hnd as [|? ? Hnotin Hnd']; subst.
    destruct (key x =? key r') eqn:Hx.
    + apply Z.eqb_eq in Hx. inversion Hfind; subst.
      destruct Hin as [->|Hin]; [ reflexivity | ].
      exfalso. apply Hnotin. rewrite Hx. now apply in_map.
    + destruct Hin as [->|Hin].
      * rewrite Z.eqb_refl in Hx. discriminate.
      * now apply IH.
Qed.

Lemma map_key_update (f : row -> row) (hit : row -> bool) (rows : list row) :
  (forall x, key (f x) = key x) ->
  map key (map (fun x => if hit x then f x else x) rows) = map key rows.
Proof.
  intro Hf. induction rows as [|x rows IH]; simpl; [ reflexivity | ].
  rewrite IH. destruct (hit x); [ now rewrite Hf | reflexivity ].
Qed.

End Tables.

(** ** Validation chains *)

Lemma validationResult_In (field : string) (chains : list (string * bool)) :
  In (field, false) chains -> In field (validationResult chains).
Proof.
  induction chains as [|[f ok] chains IH]; simpl; [ tauto | ].
  intros [Heq|Hin].
  - inversion Heq; subst. now left.
  - destruct ok; [ | right ]; now apply IH.
Qed.

Lemma validationResult_failed (field : string) (chains : list (string * bool)) :
  In field (validationResult chains) -> In (field, false) chains.
Proof.
  induction chains as [|[f ok] chains IH]; simpl; [ tauto | ].
  destruct ok; simpl.
  - intro H. right. now apply IH.
  - intros [->|H]; [ now left | right; now apply IH ].
Qed.

Lemma validationResult_nil (chains : list (string * bool)) :
  validationResult chains = [] -> Forall (fun c => snd c = true) chains.
Proof.
  induction chains as [|[f ok] chains IH]; simpl; intro H.
  - constructor.
  - destruct ok; [ | discriminate ]. constructor; [ reflexivity | auto ].
Qed.

Lemma isEmpty_false_In (field : string) (errors : list string) :
  In field errors -> negb (isEmpty errors) = true.
Proof. destruct errors; simpl; [ tauto | reflexivity ]. Qed.

Lemma isEmpty_nil (errors : list string) :
  negb (isEmpty errors) = false -> errors = [].
Proof. destruct errors; simpl; [ reflexivity | discriminate ]. Qed.

(** ** Booking service *)

Module BookingFacts.
Import Booking.

Section Facts.

Variable isISO8601 : string -> bool.

Local Abbreviation post := (post_bookings isISO8601).

(** Split a run of the handler along its early returns. *)
Ltac early_returns H :=
  unfold post_bookings in H;
  repeat match type of H with
    | (if ?c then _ else _) = _ =>
        let E := fresh "E" in destruct c eqn:E
    | match ?c with Some _ => _ | None => _ end = _ =>
        let E := fresh "E" in destruct c eqn:E
    end;
  inversion H; subst; clear H.

(** Every answer but 201 leaves the database as it was and calls nobody. *)
Lemma post_bookings_refused e req d resp out d' :
  post e req d = (resp, out, d') ->
  code resp <> 201 -> d' = d /\ out = [].
Proof.
  intros H Hcode. early_returns H; simpl in *; auto; congruence.
Qed.

(** What a 201 tells about the run. *)
Lemma post_bookings_created e req d resp out d' :
  post e req d = (resp, out, d') ->
  code resp = 201 ->
  validate isISO8601 req = [] /\
  select_err e = false /\
  exists service,
    let userId := toNumber (req_userId req) in
    let serviceId := toNumber (req_serviceId req) in
    let guests := withDefault 1 (req_guests req) in
    let totalAmount := (price service * float_of_Z guests)%float in
    let lastID := bookings_seq d + 1 in
    select_service serviceId (services d) = Some service /\
    guests <= available_slots service /\
    json resp = BookingCreated "Booking created successfully" lastID
                  totalAmount /\
    d' = mkDb (update_slots guests serviceId (services d))
           (bookings d
              ++ [mkBooking lastID userId serviceId (req_bookingDate req)
                    guests totalAmount "pending" "pending" (now e) (now e)])
           lastID.
Proof.
  intros H Hcode. early_returns H; simpl in *; try discriminate.
  split.
  - destruct (validate isISO8601 req); [ reflexivity | discriminate ].
  - split; [ reflexivity | ].
    eexists. repeat split; try eassumption.
    now apply Z.ltb_ge.
Qed.

(** C1: a CreateBooking answered 201 returns, and stores in the new booking
    row, the price of the catalog row read by the handler multiplied by the
    party size. *)
Theorem total_is_price_times_guests :
  forall e req d resp out d',
    post e req d = (resp, out, d') ->
    code resp = 201 ->
    exists service row,
      select_service (toNumber (req_serviceId req)) (services d)
        = Some service /\
      json resp =
        BookingCreated "Booking created successfully" (booking_id row)
          (price service * float_of_Z (withDefault 1 (req_guests req))) /\
      bookings d' = bookings d ++ [row] /\
      guests row = withDefault 1 (req_guests req) /\
      total_amount row = (price service * float_of_Z (guests row))%float.
Proof.
  intros e req d resp out d' Hrun Hcode.
  destruct (post_bookings_created _ _ _ _ _ _ Hrun Hcode)
    as (_ & _ & service & Hsel & _ & Hjson & ->).
  exists service. eexists. split; [ exact Hsel | ].
  split; [ | split; [ simpl; reflexivity | split; reflexivity ] ].
  exact Hjson.
Qed.

(** The UPDATE leaves the keys of [services] as they are. *)
Lemma update_slots_keys g k rows :
  map service_id (update_slots g k rows) = map service_id rows.
Proof.
  unfold update_slots.
  apply (map_key_update service service_id
           (fun s => set_available_slots s (available_slots s - g))
           (fun s => service_id s =? k)).
  reflexivity.
Qed.

(** Taking [g] places from the row a SELECT by key returned keeps every
    capacity at or above zero when that row has [g] places. *)
Lemma update_slots_capacity g k rows service :
  NoDup (map service_id rows) ->
  Forall (fun s => 0 <= available_slots s) rows ->
  select_service k rows = Some service ->
  g <= available_slots service ->
  Forall (fun s => 0 <= available_slots s) (update_slots g k rows).
Proof.
  intros Hnd Hok Hsel Hg. unfold update_slots.
  apply Forall_forall. intros s' Hin.
  apply in_map_iff in Hin. destruct Hin as (s & <- & Hin).
  destruct (service_id s =? k) eqn:Hk.
  - apply Z.eqb_eq in Hk.
    rewrite (find_key_unique _ service_id k rows service s
               Hnd Hsel Hin Hk).
    simpl. lia.
  - rewrite Forall_forall in Hok. now apply Hok.
Qed.

(** One request keeps the primary key and the bound on the capacity. *)
Lemma post_bookings_invariant e req d :
  primary_key d -> capacity_ok d ->
  primary_key (snd (post e req d)) /\ capacity_ok (snd (post e req d)).
Proof.
  intros Hpk Hok.
  destruct (post e req d) as [[resp out] d'] eqn:Hrun. simpl.
  destruct (Z.eq_dec (code resp) 201) as [Hcode|Hcode].
  - destruct (post_bookings_created _ _ _ _ _ _ Hrun Hcode)
      as (_ & _ & service & Hsel & Hg & _ & ->).
    unfold primary_key, capacity_ok. simpl. split.
    + now rewrite update_slots_keys.
    + now apply update_slots_capacity with (service := service).
  - destruct (post_bookings_refused _ _ _ _ _ _ Hrun Hcode) as [-> _].
    now split.
Qed.

Lemma run_invariant ops :
  forall d, primary_key d -> capacity_ok d ->
            capacity_ok (run isISO8601 ops d).
Proof.
  induction ops as [|[e req] ops IH]; simpl; intros d Hpk Hok.
  - exact Hok.
  - destruct (post_bookings_invariant e req d Hpk Hok) as [Hpk' Hok'].
    now apply IH.
Qed.

(** A SELECT by key after the UPDATE shows the row with [g] places less for
    the key of the UPDATE and the same row for every other key. *)
Lemma select_after_update g k k' rows :
  select_service k' (update_slots g k rows) =
  option_map (fun s => if service_id s =? k
                       then set_available_slots s (available_slots s - g)
                       else s)
    (select_service k' rows).
Proof.
  unfold select_service, update_slots.
  induction rows as [|s rows IH]; simpl; [ reflexivity | ].
  destruct (service_id s =? k) eqn:Hk; simpl;
    destruct (service_id s =? k') eqn:Hk'; simpl; rewrite ?Hk; auto.
Qed.

(** C2: from a database with its primary key and no negative capacity, no
    run of CreateBooking requests makes a capacity negative; a request for
    more places than the item has left is refused with 400 and changes
    nothing; a request answered 201 takes exactly the party size from the
    item and nothing from any other. *)
Theorem capacity_never_negative :
  forall d,
    primary_key d -> capacity_ok d ->
    (forall ops, capacity_ok (run isISO8601 ops d)) /\
    (forall e req service,
        select_service (toNumber (req_serviceId req)) (services d)
          = Some service ->
        available_slots service < withDefault 1 (req_guests req) ->
        snd (post e req d) = d /\
        snd (fst (post e req d)) = [] /\
        (select_err e = false -> code (fst (fst (post e req d))) = 400) /\
        (select_err e = false -> validate isISO8601 req = [] ->
         json (fst (fst (post e req d))) = Error "Not enough available slots"))
    /\
    (forall e req resp out d',
        post e req d = (resp, out, d') -> code resp = 201 ->
        exists n,
          slots_of (toNumber (req_serviceId req)) d = Some n /\
          withDefault 1 (req_guests req) <= n /\
          slots_of (toNumber (req_serviceId req)) d'
            = Some (n - withDefault 1 (req_guests req)) /\
          forall k, k <> toNumber (req_serviceId req) ->
                    slots_of k d' = slots_of k d).
Proof.
  intros d Hpk Hok. split; [ | split ].
  - intro ops. now apply run_invariant.
  - intros e req service Hsel Hfew.
    apply Z.ltb_lt in Hfew.
    unfold post_bookings. rewrite Hsel, Hfew.
    destruct (negb (isEmpty (validate isISO8601 req))) eqn:Hval; simpl.
    + repeat split;
        first [ reflexivity
              | intros _ Hnil; rewrite Hnil in Hval; discriminate ].
    + destruct (select_err e); simpl; repeat split; intros;
        try reflexivity; discriminate.
  - intros e req resp out d' Hrun Hcode.
    destruct (post_bookings_created _ _ _ _ _ _ Hrun Hcode)
      as (_ & _ & service & Hsel & Hg & _ & ->).
    exists (available_slots service). unfold slots_of. simpl.
    rewrite Hsel. simpl. split; [ reflexivity | ]. split; [ exact Hg | ].
    split.
    + rewrite select_after_update, Hsel. simpl.
      destruct (find_key_In _ service_id _ _ _ Hsel) as [_ Hid].
      apply Z.eqb_eq in Hid. now rewrite Hid.
    + intros k Hk. rewrite select_after_update.
      destruct (select_service k (services d)) as [s|] eqn:Hs; simpl;
        [ | reflexivity ].
      destruct (find_key_In _ service_id _ _ _ Hs) as [_ Hid].
      destruct (service_id s =? toNumber (req_serviceId req)) eqn:Heq;
        [ | reflexivity ].
      apply Z.eqb_eq in Heq. congruence.
Qed.

Lemma guests_rejected (v : jvalue) :
  out_of_range v -> optional (isInt 1 (Some 10)) v = false.
Proof.
  destruct v as [|z|raw]; simpl; [ tauto | | reflexivity ].
  intros [H|H].
  - apply andb_false_iff. left. now apply Z.leb_gt.
  - apply andb_false_iff. right. now apply Z.leb_gt.
Qed.

Lemma guests_accepted (v : jvalue) :
  optional (isInt 1 (Some 10)) v = true ->
  match v with
  | JUndefined => withDefault 1 v = 1
  | JInt z => 1 <= z <= 10 /\ withDefault 1 v = z
  | JOther _ => False
  end.
Proof.
  destruct v as [|z|raw]; simpl; [ reflexivity | | discriminate ].
  intro H. apply andb_true_iff in H. destruct H as [H1 H2].
  apply Z.leb_le in H1. apply Z.leb_le in H2. repeat split; assumption.
Qed.

Lemma guests_passed (v : jvalue) :
  v = JUndefined \/ (exists z, v = JInt z /\ 1 <= z <= 10) ->
  optional (isInt 1 (Some 10)) v = true.
Proof.
  intros [->|(z & -> & Hlo & Hhi)]; simpl; [ reflexivity | ].
  apply andb_true_iff. split; now apply Z.leb_le.
Qed.

(** Party size, sent as a single value: when it is supplied and is
    no integer from 1 to 10, the answer is 400 with a validation error on
    [guests], whatever the capacity, and no booking is stored; when it is
    omitted or an integer from 1 to 10, [guests] is not among the validation
    errors; a request answered 201 stores the supplied party size, which
    then lies between 1 and 10, or 1 when none was supplied.  (A party size
    sent as an array is not represented; the validator checks an array
    element by element and so lets the empty array pass.) *)
Theorem guests_between_1_and_10 :
  forall e req d resp out d',
    post e req d = (resp, out, d') ->
    (out_of_range (req_guests req) ->
     code resp = 400 /\
     json resp = ValidationErrors (validate isISO8601 req) /\
     In "guests" (validate isISO8601 req) /\
     out = [] /\ d' = d) /\
    (req_guests req = JUndefined \/
     (exists z, req_guests req = JInt z /\ 1 <= z <= 10) ->
     ~ In "guests" (validate isISO8601 req)) /\
    (code resp = 201 ->
     (exists row,
         bookings d' = bookings d ++ [row] /\
         guests row = withDefault 1 (req_guests req)) /\
     match req_guests req with
     | JUndefined => withDefault 1 (req_guests req) = 1
     | JInt z => 1 <= z <= 10 /\ withDefault 1 (req_guests req) = z
     | JOther _ => False
     end).
Proof.
  intros e req d resp out d' Hrun. split; [ | split ].
  - intro Hbad. apply guests_rejected in Hbad.
    assert (Hin : In "guests" (validate isISO8601 req)).
    { unfold validate. apply validationResult_In. rewrite Hbad.
      simpl. tauto. }
    unfold post_bookings in Hrun.
    rewrite (isEmpty_false_In _ _ Hin) in Hrun.
    inversion Hrun; subst. simpl. repeat split. exact Hin.
  - intros Hok Hin. apply guests_passed in Hok.
    unfold validate in Hin. apply validationResult_failed in Hin.
    rewrite Hok in Hin. simpl in Hin.
    destruct Hin as [H|[H|[H|[H|[]]]]]; discriminate H.
  - intro Hcode.
    destruct (post_bookings_created _ _ _ _ _ _ Hrun Hcode)
      as (Hval & _ & service & _ & _ & _ & ->).
    split.
    + eexists. simpl. split; reflexivity.
    + apply guests_accepted.
      apply validationResult_nil in Hval. unfold validate in Hval.
      inversion Hval as [|? ? _ H1]; subst.
      inversion H1 as [|? ? _ H2]; subst.
      inversion H2 as [|? ? _ H3]; subst.
      inversion H3 as [|? ? Hg _]; subst.
      exact Hg.
Qed.

End Facts.

(** Two guests at the beach resort of the seed data. *)
Lemma total_is_price_times_guests_witness :
  code (fst (fst (post_bookings anyDate quiet (book 1 (JInt 2)) seeded))) = 201
  /\
  exists service row,
    select_service 1 (services seeded) = Some service /\
    json (fst (fst (post_bookings anyDate quiet (book 1 (JInt 2)) seeded))) =
      BookingCreated "Booking created successfully" (booking_id row)
        (price service * float_of_Z 2) /\
    bookings (snd (post_bookings anyDate quiet (book 1 (JInt 2)) seeded))
      = bookings seeded ++ [row] /\
    guests row = 2 /\
    total_amount row = (price service * float_of_Z (guests row))%float.
Proof.
  split; [ reflexivity | ].
  apply (total_is_price_times_guests anyDate quiet (book 1 (JInt 2)) seeded
           _ _ _ eq_refl).
  reflexivity.
Defined.

(** An item with three places left: parties of 2, 2 and 1 in a row, a party
    of 4, and a party of 3. *)
Lemma capacity_never_negative_witness :
  primary_key nearlyFull /\ capacity_ok nearlyFull /\
  capacity_ok
    (run anyDate
       [ (quiet, book 1 (JInt 2)); (quiet, book 1 (JInt 2));
         (quiet, book 1 (JInt 1)) ] nearlyFull) /\
  (snd (post_bookings anyDate quiet (book 1 (JInt 4)) nearlyFull) = nearlyFull
   /\ code (fst (fst (post_bookings anyDate quiet (book 1 (JInt 4))
                        nearlyFull))) = 400) /\
  exists n,
    slots_of 1 nearlyFull = Some n /\ 3 <= n /\
    slots_of 1 (snd (post_bookings anyDate quiet (book 1 (JInt 3)) nearlyFull))
      = Some (n - 3).
Proof.
  assert (Hpk : primary_key nearlyFull).
  { unfold primary_key. simpl. repeat constructor. simpl. tauto. }
  assert (Hok : capacity_ok nearlyFull).
  { unfold capacity_ok. simpl. repeat constructor. simpl. lia. }
  destruct (capacity_never_negative anyDate nearlyFull Hpk Hok)
    as (Hrun & Hfull & Htaken).
  split; [ exact Hpk | ]. split; [ exact Hok | ].
  split; [ apply Hrun | ]. split.
  - destruct (Hfull quiet (book 1 (JInt 4)) _ eq_refl eq_refl)
      as (Hsame & _ & Hcode & _).
    split; [ exact Hsame | exact (Hcode eq_refl) ].
  - destruct (Htaken quiet (book 1 (JInt 3)) _ _ _ eq_refl eq_refl)
      as (n & Hn & Hle & Hafter & _).
    exists n. repeat split; assumption.
Defined.

(** Eleven guests where a hundred places are free, and a request that names
    no party size. *)
Lemma guests_between_1_and_10_witness :
  (code (fst (fst (post_bookings anyDate quiet (book 1 (JInt 11)) seeded)))
     = 400 /\
   snd (post_bookings anyDate quiet (book 1 (JInt 11)) seeded) = seeded) /\
  (code (fst (fst (post_bookings anyDate quiet (book 1 JUndefined) seeded)))
     = 201 /\
   exists row,
     bookings (snd (post_bookings anyDate quiet (book 1 JUndefined) seeded))
       = bookings seeded ++ [row] /\
     guests row = 1).
Proof.
  split.
  - destruct (guests_between_1_and_10 anyDate quiet (book 1 (JInt 11)) seeded
                _ _ _ eq_refl) as [Hbad _].
    destruct Hbad as (Hcode & _ & _ & _ & Hsame).
    + simpl. right. lia.
    + split; [ exact Hcode | exact Hsame ].
  - split; [ reflexivity | ].
    destruct (guests_between_1_and_10 anyDate quiet (book 1 JUndefined) seeded
                _ _ _ eq_refl) as (_ & _ & Hok).
    destruct (Hok eq_refl) as [Hrow _]. exact Hrow.
Defined.

End BookingFacts.

(** ** Payment service *)

Module PaymentFacts.
Import Payment.

(** After the refund's UPDATE no row with that payment id is "completed". *)
Lemma select_completed_after_refund paymentId response t rows :
  select_completed paymentId
    (update_where (fun p => String.eqb (payment_id p) paymentId) "refunded"
       response t rows) = None.
Proof.
  unfold select_completed, update_where.
  induction rows as [|p rows IH]; simpl; [ reflexivity | ].
  destruct (String.eqb (payment_id p) paymentId) eqn:Hp; simpl.
  - rewrite Hp. simpl. exact IH.
  - rewrite Hp. simpl. exact IH.
Qed.

Lemma refunded_after_refund paymentId response t rows p :
  In p (update_where (fun p => String.eqb (payment_id p) paymentId) "refunded"
          response t rows) ->
  payment_id p = paymentId -> status p = "refunded".
Proof.
  unfold update_where. intros Hin Hid.
  apply in_map_iff in Hin. destruct Hin as (q & <- & _).
  destruct (String.eqb (payment_id q) paymentId) eqn:Hq.
  - reflexivity.
  - apply String.eqb_neq in Hq. contradiction.
Qed.

Lemma select_completed_none paymentId rows :
  (forall p, In p rows -> payment_id p = paymentId ->
             status p <> "completed") ->
  select_completed paymentId rows = None.
Proof.
  intro Hnone. unfold select_completed.
  destruct (find _ rows) as [p|] eqn:Hfind; [ | reflexivity ].
  apply find_some in Hfind. destruct Hfind as [Hin Hp].
  apply andb_true_iff in Hp. destruct Hp as [Hid Hst].
  apply String.eqb_eq in Hid. apply String.eqb_eq in Hst.
  exfalso. exact (Hnone p Hin Hid Hst).
Qed.

Lemma select_completed_some paymentId rows p :
  select_completed paymentId rows = Some p ->
  In p rows /\ payment_id p = paymentId /\ status p = "completed".
Proof.
  unfold select_completed. intro Hfind.
  apply find_some in Hfind. destruct Hfind as [Hin Hp].
  apply andb_true_iff in Hp. destruct Hp as [Hid Hst].
  apply String.eqb_eq in Hid. apply String.eqb_eq in Hst. auto.
Qed.

Section Facts.

Variable numberToString : float -> string.

Local Abbreviation refund := (post_refund numberToString).


(** C7: when the payment is eligible and the draw fails the refund, the
    answer is the 400 failure, the database is the one before the call and
    no other service is called. *)
Theorem failed_refund_changes_nothing :
  forall e paymentId reason d payment,
    select_err e = false ->
    select_completed paymentId (payments d) = Some payment ->
    (0.1 <? random e)%float = false ->
    refund e paymentId reason d
      = (mkResponse 400 (NotRefunded "Refund processing failed"), [], d) /\
    status payment = "completed".
Proof.
  intros e paymentId reason d payment Hsel Hfound Hdraw.
  unfold post_refund. rewrite Hsel, Hfound, Hdraw.
  split; [ reflexivity | ].
  now destruct (select_completed_some _ _ _ Hfound) as (_ & _ & Hst).
Qed.

(** C4: a refund answered 200 found a row with that payment id whose status
    is "completed"; when no row with that id is "completed" the answer is
    404 and nothing changes; and after a refund answered 200 whose UPDATE
    ran, every row with that id is "refunded" and a second refund of the
    same id is answered 404. *)
Theorem refund_only_when_completed :
  forall e paymentId reason d resp out d',
    refund e paymentId reason d = (resp, out, d') ->
    (code resp = 200 ->
     exists payment,
       In payment (payments d) /\ payment_id payment = paymentId /\
       status payment = "completed") /\
    ((forall p, In p (payments d) -> payment_id p = paymentId ->
                status p <> "completed") ->
     select_err e = false ->
     resp = mkResponse 404
              (Error "Payment not found or not eligible for refund") /\
     out = [] /\ d' = d) /\
    (code resp = 200 -> update_err e = false ->
     (forall p, In p (payments d') -> payment_id p = paymentId ->
                status p = "refunded") /\
     forall e2 reason2,
       select_err e2 = false ->
       refund e2 paymentId reason2 d'
         = (mkResponse 404
              (Error "Payment not found or not eligible for refund"),
            [], d')).
Proof.
  intros e paymentId reason d resp out d' Hrun.
  unfold post_refund in Hrun. split; [ | split ].
  - intro Hcode.
    destruct (select_err e); [ inversion Hrun; subst; discriminate | ].
    destruct (select_completed paymentId (payments d)) as [p|] eqn:Hfound;
      [ | inversion Hrun; subst; discriminate ].
    exists p. now apply select_completed_some.
  - intros Hnone Hsel.
    rewrite Hsel, (select_completed_none _ _ Hnone) in Hrun.
    inversion Hrun; subst. auto.
  - intros Hcode Hupd.
    destruct (select_err e); [ inversion Hrun; subst; discriminate | ].
    destruct (select_completed paymentId (payments d)) as [p|] eqn:Hfound;
      [ | inversion Hrun; subst; discriminate ].
    destruct (0.1 <? random e)%float;
      [ | inversion Hrun; subst; discriminate ].
    rewrite Hupd in Hrun. inversion Hrun; subst; clear Hrun. simpl. split.
    + intros q Hin Hid. now apply refunded_after_refund in Hin.
    + intros e2 reason2 Hsel2. unfold post_refund. simpl.
      now rewrite Hsel2, select_completed_after_refund.
Qed.

End Facts.


(** A completed payment and a draw of 0.05. *)
Lemma failed_refund_changes_nothing_witness :
  post_refund showNumber unlucky "pay-1" None onePaid
    = (mkResponse 400 (NotRefunded "Refund processing failed"), [], onePaid)
  /\ status paidRow = "completed".
Proof.
  exact (failed_refund_changes_nothing showNumber unlucky "pay-1" None onePaid
           paidRow eq_refl eq_refl eq_refl).
Defined.

(** A completed payment refunded with a draw of 0.5, then refunded again,
    and a refund of an id the table does not hold. *)
Lemma refund_only_when_completed_witness :
  code (fst (fst (post_refund showNumber lucky "pay-1" None onePaid))) = 200
  /\
  (exists payment,
      In payment (payments onePaid) /\ payment_id payment = "pay-1" /\
      status payment = "completed") /\
  post_refund showNumber lucky "pay-1" None
    (snd (post_refund showNumber lucky "pay-1" None onePaid))
    = (mkResponse 404 (Error "Payment not found or not eligible for refund"),
       [], snd (post_refund showNumber lucky "pay-1" None onePaid)) /\
  fst (fst (post_refund showNumber lucky "pay-9" None onePaid))
    = mkResponse 404 (Error "Payment not found or not eligible for refund").
Proof.
  destruct (refund_only_when_completed showNumber lucky "pay-1" None onePaid
              _ _ _ eq_refl) as (Hfound & _ & Hagain).
  destruct (refund_only_when_completed showNumber lucky "pay-9" None onePaid
              _ _ _ eq_refl) as (_ & Hnone & _).
  split; [ reflexivity | ].
  split; [ exact (Hfound eq_refl) | ].
  split.
  - destruct (Hagain eq_refl eq_refl) as [_ Hsecond].
    exact (Hsecond lucky None eq_refl).
  - destruct Hnone as (Hresp & _ & _).
    + simpl. intros p [<-|[]] Hid. discriminate.
    + reflexivity.
    + exact Hresp.
Defined.

End PaymentFacts.

(** ** Notification service *)

Module NotificationFacts.
Import Notification.

(** The rows the UPDATE of PUT /notifications/:id/read leaves. *)
Lemma put_read_rows e param rows :
  update_err e = false ->
  snd (put_read e param rows)
  = map (fun n => if where_id param n then set_read_at n (Some (now e))
                  else n) rows.
Proof.
  intro H. unfold put_read. rewrite H.
  now destruct (Z.of_nat _ =? 0).
Qed.

Lemma put_read_fault e param rows :
  update_err e = true -> snd (put_read e param rows) = rows.
Proof. intro H. unfold put_read. now rewrite H. Qed.

(** Stamping the rows of one id at [t1] and then at [t2] is stamping them
    at [t2]. *)
Lemma stamp_twice param t1 t2 rows :
  map (fun n => if where_id param n then set_read_at n (Some t2) else n)
    (map (fun n => if where_id param n then set_read_at n (Some t1) else n)
       rows)
  = map (fun n => if where_id param n then set_read_at n (Some t2) else n)
      rows.
Proof.
  rewrite map_map. apply map_ext. intro n.
  destruct (where_id param n) eqn:Hn; [ | now rewrite Hn ].
  assert (Hsame : where_id param (set_read_at n (Some t1)) = true)
    by (destruct param; exact Hn).
  now rewrite Hsame.
Qed.

(** Every column of every row but [read_at] is as it was after a call. *)
Lemma put_read_core e param rows :
  map notification_core (snd (put_read e param rows))
  = map notification_core rows.
Proof.
  unfold put_read. destruct (update_err e); [ reflexivity | ].
  assert (Hcore : map notification_core
                    (map (fun n => if where_id param n
                                   then set_read_at n (Some (now e)) else n)
                       rows)
                  = map notification_core rows).
  { rewrite map_map. apply map_ext. intro n.
    now destruct (where_id param n). }
  now destruct (_ =? 0).
Qed.

(** A row with another id than the one asked for is as it was. *)
Lemma put_read_other e z rows n :
  In n rows -> id n <> z -> In n (snd (put_read e (JInt z) rows)).
Proof.
  intros Hin Hz. unfold put_read.
  destruct (update_err e); [ exact Hin | ].
  assert (Hrow : In n (map (fun n => if where_id (JInt z) n
                                     then set_read_at n (Some (now e)) else n)
                         rows)).
  { apply in_map_iff. exists n. split; [ | exact Hin ].
    simpl. apply Z.eqb_neq in Hz. now rewrite Hz. }
  now destruct (_ =? 0).
Qed.

(** C3, as the code has it: every MarkRead whose UPDATE runs stamps the
    rows of that id with the time of that call, so after two calls the log
    is what one call at the second time leaves, the read timestamp is the
    second call's, and it is the first call's only when the clock did not
    move between the calls.  After the two calls every row has all its
    columns but [read_at] as before, and a row with another id than the
    one asked for is the row it was. *)
Theorem mark_read_last_call_wins :
  forall e1 e2 param rows,
    update_err e2 = false ->
    snd (put_read e2 param (snd (put_read e1 param rows)))
      = snd (put_read e2 param rows) /\
    (forall n,
        In n (snd (put_read e2 param (snd (put_read e1 param rows)))) ->
        where_id param n = true -> read_at n = Some (now e2)) /\
    (update_err e1 = false -> now e1 = now e2 ->
     snd (put_read e2 param (snd (put_read e1 param rows)))
       = snd (put_read e1 param rows)) /\
    map notification_core
      (snd (put_read e2 param (snd (put_read e1 param rows))))
      = map notification_core rows /\
    (forall z n,
        param = JInt z -> In n rows -> id n <> z ->
        In n (snd (put_read e2 param (snd (put_read e1 param rows))))).
Proof.
  intros e1 e2 param rows H2.
  assert (Hlast : snd (put_read e2 param (snd (put_read e1 param rows)))
                  = snd (put_read e2 param rows)).
  { destruct (update_err e1) eqn:H1.
    - now rewrite (put_read_fault e1).
    - rewrite (put_read_rows e1), !(put_read_rows e2) by assumption.
      apply stamp_twice. }
  split; [ exact Hlast | ]. split; [ | split; [ | split ] ].
  - intros n Hin Hn. rewrite Hlast, put_read_rows in Hin by assumption.
    apply in_map_iff in Hin. destruct Hin as (m & <- & _).
    destruct (where_id param m) eqn:Hm; [ reflexivity | ].
    rewrite Hm in Hn. discriminate.
  - intros H1 Hclock. rewrite Hlast.
    rewrite (put_read_rows e1), (put_read_rows e2) by assumption.
    now rewrite Hclock.
  - rewrite Hlast. apply put_read_core.
  - intros z n -> Hin Hz. rewrite Hlast. now apply put_read_other.
Qed.

(** One unread notification marked read at second 10 and again at second
    20. *)
Lemma mark_read_last_call_wins_witness :
  snd (put_read at_twenty (JInt 1) (snd (put_read at_ten (JInt 1) unread)))
    = snd (put_read at_twenty (JInt 1) unread) /\
  read_at_of 1
    (snd (put_read at_twenty (JInt 1) (snd (put_read at_ten (JInt 1) unread))))
    = Some (Some (now at_twenty)) /\
  map notification_core
    (snd (put_read at_twenty (JInt 1) (snd (put_read at_ten (JInt 1) unread))))
    = map notification_core unread.
Proof.
  destruct (mark_read_last_call_wins at_ten at_twenty (JInt 1) unread eq_refl)
    as (Hlast & _ & _ & Hcore & _).
  split; [ exact Hlast | ]. split; [ | exact Hcore ].
  rewrite Hlast. reflexivity.
Defined.

(** C3, as the spec has it, fails: the second MarkRead of notification 1 is
    answered 200 like the first and replaces the read timestamp the first
    call stored. *)
Lemma mark_read_twice_counterexample :
  code (fst (put_read at_ten (JInt 1) unread)) = 200 /\
  code (fst (put_read at_twenty (JInt 1)
               (snd (put_read at_ten (JInt 1) unread)))) = 200 /\
  read_at_of 1 (snd (put_read at_ten (JInt 1) unread))
    = Some (Some 1700000010) /\
  read_at_of 1
    (snd (put_read at_twenty (JInt 1) (snd (put_read at_ten (JInt 1) unread))))
    = Some (Some 1700000020) /\
  read_at_of 1
    (snd (put_read at_twenty (JInt 1) (snd (put_read at_ten (JInt 1) unread))))
    <> read_at_of 1 (snd (put_read at_ten (JInt 1) unread)).
Proof.
  repeat split; try reflexivity. discriminate.
Qed.

End NotificationFacts.

(** ** User service *)

Module UserFacts.
Import User.

Section Facts.

Variable isEmail : string -> bool.
Variable normalizeEmail : string -> string.
Variable trim : string -> string.
Variable bcrypt_hash : string -> string -> string.
Variable jwt_sign : claims -> Z -> string.
Variable jwt_verify : string -> Z -> option claims.

Local Abbreviation register :=
  (post_register isEmail normalizeEmail trim bcrypt_hash jwt_sign).

Local Abbreviation update :=
  (put_profile isEmail normalizeEmail trim jwt_verify).

(** C8: when a row already holds the (normalised) address of a Register
    request, the table is left as it is and no 201 is sent; a request that
    passes validation and whose SELECT runs is answered 400 "User already
    exists". *)
Theorem duplicate_email_rejected :
  forall e req d u,
    In u (users d) ->
    email u = normalizeEmail (reg_email req) ->
    snd (register e req d) = d /\
    code (fst (register e req d)) <> 201 /\
    (isEmail (reg_email req) = true ->
     isLength 6 (reg_password req) = true ->
     isLength 2 (trim (reg_name req)) = true ->
     select_err e = false ->
     fst (register e req d) = mkResponse 400 (Error "User already exists")).
Proof.
  intros e req d u Hin Hmail.
  assert (Hfound : exists row,
             find (fun u => String.eqb (email u)
                              (normalizeEmail (reg_email req))) (users d)
             = Some row).
  { destruct (find _ (users d)) as [row|] eqn:Hfind; [ now exists row | ].
    apply (find_none _ _ Hfind) in Hin.
    rewrite Hmail, String.eqb_refl in Hin. discriminate. }
  destruct Hfound as [row Hfind].
  unfold post_register. rewrite Hfind.
  split; [ | split ].
  - destruct (negb (isEmpty _)); [ reflexivity | ].
    now destruct (select_err e).
  - destruct (negb (isEmpty _)); [ discriminate | ].
    destruct (select_err e); discriminate.
  - intros H1 H2 H3 H4. rewrite H1, H2, H3, H4. reflexivity.
Qed.

Lemma isLength_2_nonempty (s : string) :
  isLength 2 s = true -> String.eqb s "" = false.
Proof. destruct s; [ discriminate | reflexivity ]. Qed.

(** C9, as the code has it: an UpdateProfile that is not answered 200
    changes nothing; one answered 200 changes only the row of the token's
    account, where it stores the supplied name (trimmed) and the supplied
    address (normalised, when that is not empty), sets [updated_at] to the
    time of the call and keeps [id], [password], [created_at] and every
    field that was not supplied. *)
Theorem update_profile_frame :
  forall e req d resp d',
    update e req d = (resp, d') ->
    (code resp <> 200 -> d' = d) /\
    (code resp = 200 ->
     exists user,
       authenticateToken jwt_verify e (authorization req) = inr user /\
       users_seq d' = users_seq d /\
       users d' =
         map (fun u =>
                if id u =? userId user then
                  mkUser (id u)
                    match req_email req with
                    | Some v => if String.eqb (normalizeEmail v) ""
                                then email u else normalizeEmail v
                    | None => email u
                    end
                    (password u)
                    match req_name req with
                    | Some v => trim v
                    | None => name u
                    end
                    (created_at u) (now e)
                else u) (users d)).
Proof.
  intros e req d resp d' Hrun. unfold put_profile in Hrun.
  destruct (authenticateToken jwt_verify e (authorization req))
    as [refusal|user] eqn:Hauth.
  { inversion Hrun; subst. split; [ reflexivity | ].
    intro Hcode. exfalso. revert Hauth Hcode. unfold authenticateToken.
    repeat match goal with
      | |- context [match ?c with _ => _ end] => destruct c
      end; intro H; inversion H; subst; discriminate. }
  destruct (negb (isEmpty _)) eqn:Hval in Hrun.
  { inversion Hrun; subst. split; [ reflexivity | discriminate ]. }
  apply isEmpty_nil, validationResult_nil in Hval.
  inversion Hval as [|? ? Hname Hrest]; subst. clear Hval. simpl in Hname.
  clear Hrest.
  destruct (req_name req) as [n|]; destruct (req_email req) as [m|];
    simpl in Hrun;
    try rewrite (isLength_2_nonempty _ Hname) in Hrun; simpl in Hrun;
    try (destruct (String.eqb (normalizeEmail m) "") eqn:Hm; simpl in Hrun);
    try (inversion Hrun; subst; split; [ reflexivity | discriminate ]);
    (destruct (update_err e || _) in Hrun;
     [ inversion Hrun; subst; split; [ reflexivity | discriminate ]
     | inversion Hrun; subst; split; [ intro Hc; now elim Hc | ];
       intros _; exists user; repeat split; simpl;
       unfold update_user; apply map_ext; intro u;
       destruct (id u =? userId user); reflexivity ]).
Qed.

End Facts.

(** Al, renamed to Bob. *)
Lemma update_profile_frame_witness :
  exists user,
    authenticateToken verify calm (authorization renameAl) = inr user /\
    users_seq (snd (put_profile hasAt asIs asIs verify calm renameAl oneUser))
      = users_seq oneUser /\
    users (snd (put_profile hasAt asIs asIs verify calm renameAl oneUser))
      = [ mkUser 1 "a@x.com" "s$secret1" "Bob" 1700000000 (now calm) ].
Proof.
  destruct (update_profile_frame hasAt asIs asIs verify calm renameAl oneUser
              _ _ eq_refl) as [_ Hok].
  destruct (Hok eq_refl) as (user & Hauth & Hseq & Hrows).
  exists user. split; [ exact Hauth | ]. split; [ exact Hseq | ].
  simpl in Hauth. inversion Hauth; subst user. exact Hrows.
Defined.

(** C9, as the spec has it, fails: the request supplies only a name, and
    [updated_at], which it does not supply, does not keep its value. *)
Lemma update_profile_counterexample :
  req_name renameAl = Some "Bob" /\ req_email renameAl = None /\
  users oneUser = [ mkUser 1 "a@x.com" "s$secret1" "Al" 1700000000 1700000000 ]
  /\
  put_profile hasAt asIs asIs verify calm renameAl oneUser
    = (mkResponse 200 (Message "Profile updated successfully"),
       mkDb [ mkUser 1 "a@x.com" "s$secret1" "Bob" 1700000000 1700000500 ] 1)
  /\
  map updated_at
    (users (snd (put_profile hasAt asIs asIs verify calm renameAl oneUser)))
    <> map updated_at (users oneUser).
Proof.
  repeat split; try reflexivity. discriminate.
Qed.

(** C6: with a token that verifies and decodes to account 5, which the table
    does not hold, GET /profile answers 404 "User not found" but PUT /profile
    answers 200 "Profile updated successfully" and changes no row. *)
Theorem update_profile_unknown_account :
  authenticateToken verify calm (authorization renameEve)
    = inr (mkClaims 5 "e@x.com" "Eve") /\
  find (fun u => id u =? 5) (users oneUser) = None /\
  get_profile verify calm (authorization renameEve) oneUser
    = mkResponse 404 (Error "User not found") /\
  put_profile hasAt asIs asIs verify calm renameEve oneUser
    = (mkResponse 200 (Message "Profile updated successfully"), oneUser).
Proof.
  repeat split; reflexivity.
Qed.

(** A second registration of a@x.com. *)
Lemma duplicate_email_rejected_witness :
  post_register hasAt asIs asIs salted sign calm again oneUser
    = (mkResponse 400 (Error "User already exists"), oneUser).
Proof.
  destruct (duplicate_email_rejected hasAt asIs asIs salted sign calm again
              oneUser al) as (Hsame & _ & Hanswer).
  - simpl. now left.
  - reflexivity.
  - rewrite (surjective_pairing (post_register _ _ _ _ _ _ _ _)).
    rewrite Hsame, Hanswer; reflexivity.
Defined.

End UserFacts.

(** ** Booking service: the status routes, ids and the places held *)

Module BookingRoutes.
Import Booking.

(** An UPDATE whose WHERE matches no row leaves the rows as they are. *)
Lemma map_no_hit {A : Type} (hit : A -> bool) (f : A -> A) (rows : list A) :
  (forall x, In x rows -> hit x = false) ->
  map (fun x => if hit x then f x else x) rows = rows.
Proof.
  induction rows as [|x rows IH]; simpl; intro Hno; [ reflexivity | ].
  rewrite (Hno x (or_introl eq_refl)). f_equal. apply IH.
  intros y Hy. apply Hno. now right.
Qed.

Lemma filter_no_hit {A : Type} (hit : A -> bool) (rows : list A) :
  (forall x, In x rows -> hit x = false) -> filter hit rows = [].
Proof.
  induction rows as [|x rows IH]; simpl; intro Hno; [ reflexivity | ].
  rewrite (Hno x (or_introl eq_refl)). apply IH.
  intros y Hy. apply Hno. now right.
Qed.

Lemma filter_some_hit {A : Type} (hit : A -> bool) (rows : list A) (x : A) :
  In x rows -> hit x = true ->
  (Z.of_nat (List.length (filter hit rows)) =? 0) = false.
Proof.
  intros Hin Hx.
  assert (Hf : In x (filter hit rows)) by (apply filter_In; auto).
  destruct (filter hit rows); [ contradiction | reflexivity ].
Qed.

Lemma NoDup_snoc {A : Type} (l : list A) (a : A) :
  NoDup l -> ~ In a l -> NoDup (l ++ [a]).
Proof.
  induction l as [|x l IH]; simpl; intros Hnd Hnot.
  - constructor; [ tauto | constructor ].
  - inversion Hnd as [|? ? Hx Hl]; subst. constructor.
    + intro Hin. apply in_app_or in Hin. simpl in Hin.
      destruct Hin as [Hin|[Hin|[]]]; [ tauto | ].
      apply Hnot. now left.
    + apply IH; [ exact Hl | tauto ].
Qed.

Section Update.

Variable set : booking -> string -> Z -> booking.
Variables failed updated : string.
Hypothesis set_core : forall b v t, booking_core (set b v t) = booking_core b.

Local Abbreviation upd := (update_booking set failed updated).

Lemma update_booking_frame e param v d :
  services (snd (upd e param v d)) = services d /\
  bookings_seq (snd (upd e param v d)) = bookings_seq d /\
  map booking_core (bookings (snd (upd e param v d)))
    = map booking_core (bookings d).
Proof.
  unfold update_booking.
  destruct (update_err e); [ simpl; auto | ].
  assert (Hcore : map booking_core
                    (map (fun b => if where_id param (booking_id b)
                                   then set b v (at_time e) else b)
                       (bookings d))
                  = map booking_core (bookings d)).
  { rewrite map_map. apply map_ext. intro b.
    destruct (where_id param (booking_id b)); [ apply set_core | reflexivity ]. }
  destruct (_ =? 0); simpl; auto.
Qed.


Lemma update_booking_known e param v d b :
  update_err e = false ->
  In b (bookings d) -> where_id param (booking_id b) = true ->
  fst (upd e param v d) = mkReply 200 (Done updated) /\
  bookings (snd (upd e param v d))
    = map (fun b => if where_id param (booking_id b)
                    then set b v (at_time e) else b) (bookings d).
Proof.
  intros He Hin Hb. unfold update_booking. rewrite He.
  rewrite (filter_some_hit (fun b => where_id param (booking_id b)) _ b Hin Hb).
  simpl. auto.
Qed.

End Update.

Lemma set_status_core b v t : booking_core (set_status b v t) = booking_core b.
Proof. reflexivity. Qed.

Lemma set_payment_status_core b v t :
  booking_core (set_payment_status b v t) = booking_core b.
Proof. reflexivity. Qed.



(** What the columns of [booking_core] decide is the same in two tables
    with the same cores. *)
Lemma same_core {A : Type} (g : Z * Z * Z * string * Z * float * Z -> A)
  (rows rows' : list booking) :
  map booking_core rows' = map booking_core rows ->
  map (fun b => g (booking_core b)) rows'
    = map (fun b => g (booking_core b)) rows.
Proof.
  intro H.
  rewrite <- (map_map booking_core g rows'), <- (map_map booking_core g rows).
  now rewrite H.
Qed.

Lemma same_core_ids (rows rows' : list booking) :
  map booking_core rows' = map booking_core rows ->
  map booking_id rows' = map booking_id rows.
Proof.
  exact (same_core (fun c => fst (fst (fst (fst (fst (fst c)))))) rows rows').
Qed.

(** X2: The two status routes, whatever they answer, leave the catalog, the id
    counter and, in every booking, all columns but their own status column
    and [updated_at]; a 200 means every booking of that id now has the
    value sent.  So cancelling a booking gives no places back. *)
Theorem status_routes_frame :
  forall e param v d,
    (services (snd (put_status e param v d)) = services d /\
     bookings_seq (snd (put_status e param v d)) = bookings_seq d /\
     map booking_core (bookings (snd (put_status e param v d)))
       = map booking_core (bookings d) /\
     map payment_status (bookings (snd (put_status e param v d)))
       = map payment_status (bookings d) /\
     (reply_code (fst (put_status e param v d)) = 200 ->
      forall b, In b (bookings (snd (put_status e param v d))) ->
                where_id param (booking_id b) = true -> status b = v)) /\
    (services (snd (put_payment_status e param v d)) = services d /\
     bookings_seq (snd (put_payment_status e param v d)) = bookings_seq d /\
     map booking_core (bookings (snd (put_payment_status e param v d)))
       = map booking_core (bookings d) /\
     map status (bookings (snd (put_payment_status e param v d)))
       = map status (bookings d) /\
     (reply_code (fst (put_payment_status e param v d)) = 200 ->
      forall b, In b (bookings (snd (put_payment_status e param v d))) ->
                where_id param (booking_id b) = true ->
                payment_status b = v)).
Proof.
  intros e param v d. split.
  - unfold put_status.
    destruct (negb (isEmpty _)); [ simpl; repeat split; discriminate | ].
    destruct (update_booking_frame set_status "Failed to update booking"
                "Booking status updated successfully" set_status_core
                e param v d) as (Hs & Hq & Hc).
    split; [ exact Hs | ]. split; [ exact Hq | ]. split; [ exact Hc | ].
    unfold update_booking.
    destruct (update_err e); [ simpl; split; [ reflexivity | discriminate ] | ].
    assert (Hset : forall b,
               In b (map (fun b => if where_id param (booking_id b)
                                   then set_status b v (at_time e) else b)
                       (bookings d)) ->
               where_id param (booking_id b) = true -> status b = v).
    { intros b Hin Hb. apply in_map_iff in Hin. destruct Hin as (a & <- & _).
      destruct (where_id param (booking_id a)) eqn:Ha; [ reflexivity | ].
      rewrite Ha in Hb. discriminate. }
    assert (Hkeep : map payment_status
                      (map (fun b => if where_id param (booking_id b)
                                     then set_status b v (at_time e) else b)
                         (bookings d))
                    = map payment_status (bookings d)).
    { rewrite map_map. apply map_ext. intro b.
      now destruct (where_id param (booking_id b)). }
    destruct (_ =? 0); simpl; split; auto.
  - unfold put_payment_status.
    destruct (negb (isEmpty _)); [ simpl; repeat split; discriminate | ].
    destruct (update_booking_frame set_payment_status
                "Failed to update payment status"
                "Payment status updated successfully" set_payment_status_core
                e param v d) as (Hs & Hq & Hc).
    split; [ exact Hs | ]. split; [ exact Hq | ]. split; [ exact Hc | ].
    unfold update_booking.
    destruct (update_err e); [ simpl; split; [ reflexivity | discriminate ] | ].
    assert (Hset : forall b,
               In b (map (fun b => if where_id param (booking_id b)
                                   then set_payment_status b v (at_time e)
                                   else b) (bookings d)) ->
               where_id param (booking_id b) = true -> payment_status b = v).
    { intros b Hin Hb. apply in_map_iff in Hin. destruct Hin as (a & <- & _).
      destruct (where_id param (booking_id a)) eqn:Ha; [ reflexivity | ].
      rewrite Ha in Hb. discriminate. }
    assert (Hkeep : map status
                      (map (fun b => if where_id param (booking_id b)
                                     then set_payment_status b v (at_time e)
                                     else b) (bookings d))
                    = map status (bookings d)).
    { rewrite map_map. apply map_ext. intro b.
      now destruct (where_id param (booking_id b)). }
    destruct (_ =? 0); simpl; split; auto.
Qed.

(** Booking 1 of the sample, cancelled. *)
Lemma status_routes_frame_witness :
  reply_code (fst (put_status steady (JInt 1) "cancelled" twoBooked)) = 200 /\
  services (snd (put_status steady (JInt 1) "cancelled" twoBooked))
    = services twoBooked /\
  map status (bookings (snd (put_status steady (JInt 1) "cancelled" twoBooked)))
    = ["cancelled"; "pending"].
Proof.
  destruct (status_routes_frame steady (JInt 1) "cancelled" twoBooked)
    as [(Hs & _) _].
  split; [ reflexivity | ]. split; [ exact Hs | reflexivity ].
Defined.

Section Runs.

Variable isISO8601 : string -> bool.

Local Abbreviation post := (post_bookings isISO8601).

(** What one request does to the tables: a booking answered 201 appends
    one row under the next id and takes its places; every other request
    keeps the catalog, the counter and the cores of the bookings. *)
Lemma step_cases (c : call) (d : db) :
  (services (step isISO8601 c d) = services d /\
   bookings_seq (step isISO8601 c d) = bookings_seq d /\
   map booking_core (bookings (step isISO8601 c d))
     = map booking_core (bookings d)) \/
  (exists e req service row,
      c = Create e req /\
      code (fst (fst (post e req d))) = 201 /\
      select_service (booking_service_id row) (services d) = Some service /\
      guests row <= available_slots service /\
      booking_id row = bookings_seq d + 1 /\
      step isISO8601 c d
        = mkDb (update_slots (guests row) (booking_service_id row)
                  (services d))
            (bookings d ++ [row]) (bookings_seq d + 1)).
Proof.
  destruct c as [e req|e param v|e param v]; simpl.
  - destruct (post e req d) as [[resp out] d'] eqn:Hrun. simpl.
    destruct (Z.eq_dec (code resp) 201) as [Hcode|Hcode].
    + right.
      destruct (BookingFacts.post_bookings_created _ _ _ _ _ _ _ Hrun Hcode)
        as (_ & _ & service & Hsel & Hg & _ & ->).
      exists e, req, service.
      exists (mkBooking (bookings_seq d + 1) (toNumber (req_userId req))
                (toNumber (req_serviceId req)) (req_bookingDate req)
                (withDefault 1 (req_guests req))
                (price service * float_of_Z (withDefault 1 (req_guests req)))
                "pending" "pending" (now e) (now e)).
      split; [ reflexivity | ]. split; [ now rewrite Hrun | ].
      simpl. auto.
    + left.
      destruct (BookingFacts.post_bookings_refused _ _ _ _ _ _ _ Hrun Hcode)
        as [-> _].
      auto.
  - left. unfold put_status.
    destruct (negb (isEmpty _)); [ simpl; auto | ].
    apply update_booking_frame. exact set_status_core.
  - left. unfold put_payment_status.
    destruct (negb (isEmpty _)); [ simpl; auto | ].
    apply update_booking_frame. exact set_payment_status_core.
Qed.

Lemma step_ids_issued (c : call) (d : db) :
  ids_issued d -> ids_issued (step isISO8601 c d).
Proof.
  intros [Hle Hnd]. unfold ids_issued.
  destruct (step_cases c d) as [(_ & Hq & Hc)|Hnew].
  - rewrite Hq. apply same_core_ids in Hc. split.
    + apply Forall_map with (f := booking_id) (P := fun k => k <= bookings_seq d).
      rewrite Hc. now apply Forall_map.
    + now rewrite Hc.
  - destruct Hnew as (e & req & service & row & _ & _ & _ & _ & Hid & ->).
    simpl. split.
    + apply Forall_app. split.
      * eapply Forall_impl; [ | exact Hle ]. simpl. intros; lia.
      * constructor; [ lia | constructor ].
    + rewrite map_app. simpl. apply NoDup_snoc; [ exact Hnd | ].
      intro Hin. apply in_map_iff in Hin. destruct Hin as (b & Hb & Hin).
      rewrite Forall_forall in Hle. specialize (Hle b Hin). lia.
Qed.

Lemma run_ids_issued (cs : list call) :
  forall d, ids_issued d -> ids_issued (run_calls isISO8601 cs d).
Proof.
  unfold run_calls.
  induction cs as [|c cs IH]; simpl; intros d H; [ exact H | ].
  apply IH. now apply step_ids_issued.
Qed.

(** X3: Booking ids: after any run of requests from a database whose ids were
    issued by the counter, ids are still distinct and at most the counter,
    and the id a 201 returns is above the id of every booking stored
    before. *)
Theorem booking_ids_fresh :
  forall cs d e req,
    ids_issued d ->
    ids_issued (run_calls isISO8601 cs d) /\
    (code (fst (fst (post e req (run_calls isISO8601 cs d)))) = 201 ->
     exists bookingId totalAmount,
       json (fst (fst (post e req (run_calls isISO8601 cs d))))
         = BookingCreated "Booking created successfully" bookingId
             totalAmount /\
       forall b, In b (bookings (run_calls isISO8601 cs d)) ->
                 booking_id b < bookingId).
Proof.
  intros cs d e req Hd.
  assert (Hrun := run_ids_issued cs d Hd).
  split; [ exact Hrun | ]. intro Hcode.
  destruct (post e req (run_calls isISO8601 cs d)) as [[resp out] d'] eqn:Hp.
  simpl in *.
  destruct (BookingFacts.post_bookings_created _ _ _ _ _ _ _ Hp Hcode)
    as (_ & _ & service & _ & _ & Hjson & _).
  eexists. eexists. split; [ exact Hjson | ].
  intros b Hin. destruct Hrun as [Hle _].
  rewrite Forall_forall in Hle. specialize (Hle b Hin). lia.
Qed.

Lemma booked_same_core (k : Z) (rows : list booking) :
  forall rows',
    map booking_core rows' = map booking_core rows ->
    fold_right Z.add 0
      (map guests (filter (fun b => booking_service_id b =? k) rows'))
    = fold_right Z.add 0
        (map guests (filter (fun b => booking_service_id b =? k) rows)).
Proof.
  induction rows as [|b rows IH]; intros [|b' rows'] H; simpl in *;
    try discriminate; [ reflexivity | ].
  inversion H as [[H1 H2 H3 H4 H5 H6 H7 Hrest]]. rewrite H3.
  destruct (booking_service_id b =? k); simpl; rewrite ?H5;
    now rewrite (IH rows' Hrest).
Qed.

Lemma booked_snoc (k : Z) (rows : list booking) (row : booking) :
  fold_right Z.add 0
    (map guests (filter (fun b => booking_service_id b =? k) (rows ++ [row])))
  = fold_right Z.add 0
      (map guests (filter (fun b => booking_service_id b =? k) rows))
    + (if booking_service_id row =? k then guests row else 0).
Proof.
  induction rows as [|b rows IH]; simpl.
  - destruct (booking_service_id row =? k); simpl; lia.
  - destruct (booking_service_id b =? k); simpl; rewrite IH; lia.
Qed.

Lemma step_places (c : call) (d : db) (k n : Z) :
  slots_of k d = Some n ->
  exists n',
    slots_of k (step isISO8601 c d) = Some n' /\
    n' + booked k (step isISO8601 c d) = n + booked k d.
Proof.
  intro Hn. destruct (step_cases c d) as [(Hs & _ & Hc)|Hnew].
  - exists n. unfold slots_of, booked in *. rewrite Hs.
    split; [ exact Hn | ]. now rewrite (booked_same_core k _ _ Hc).
  - destruct Hnew as (e & req & service & row & _ & _ & Hsel & _ & _ & ->).
    unfold slots_of, booked in *. simpl.
    rewrite BookingFacts.select_after_update, booked_snoc.
    destruct (select_service k (services d)) as [s|] eqn:Hs;
      [ | discriminate ].
    simpl in Hn. inversion Hn; subst n. clear Hn.
    destruct (find_key_In _ service_id _ _ _ Hs) as [_ Hid].
    simpl. rewrite Hid, (Z.eqb_sym k).
    destruct (booking_service_id row =? k) eqn:Hk.
    + eexists. split; [ reflexivity | ]. simpl. lia.
    + eexists. split; [ reflexivity | ]. lia.
Qed.

(** X4: Places: over any run of requests, the places an item has left plus the
    places held by its bookings, cancelled or not, stay what they were. *)
Theorem places_conserved :
  forall cs d k n,
    slots_of k d = Some n ->
    exists n',
      slots_of k (run_calls isISO8601 cs d) = Some n' /\
      n' + booked k (run_calls isISO8601 cs d) = n + booked k d.
Proof.
  unfold run_calls.
  induction cs as [|c cs IH]; simpl; intros d k n Hn.
  - exists n. split; [ exact Hn | reflexivity ].
  - destruct (step_places c d k n Hn) as (n1 & Hn1 & Hsum1).
    destruct (IH _ k n1 Hn1) as (n2 & Hn2 & Hsum2).
    exists n2. split; [ exact Hn2 | lia ].
Qed.

Lemma find_app_skip {A : Type} (p : A -> bool) (l1 l2 : list A) :
  (forall x, In x l1 -> p x = false) -> find p (l1 ++ l2) = find p l2.
Proof.
  induction l1 as [|x l1 IH]; simpl; intro Hno; [ reflexivity | ].
  rewrite (Hno x (or_introl eq_refl)). apply IH.
  intros y Hy. apply Hno. now right.
Qed.

Lemma find_filter_head {A : Type} (p : A -> bool) (l : list A) (x : A) :
  find p l = Some x -> exists rest, filter p l = x :: rest.
Proof.
  induction l as [|y l IH]; simpl; [ discriminate | ].
  destruct (p y) eqn:Hy.
  - intro H. inversion H; subst. now eexists.
  - exact IH.
Qed.

Lemma joined_snoc (bs : list booking) (b : booking) (ss : list service) :
  joined (bs ++ [b]) ss
  = joined bs ss
    ++ map (pair b) (filter (fun s => service_id s =? booking_service_id b) ss).
Proof.
  unfold joined. rewrite flat_map_app. simpl. now rewrite app_nil_r.
Qed.

Lemma joined_fst (bs : list booking) (ss : list service) row :
  In row (joined bs ss) -> In (fst row) bs.
Proof.
  unfold joined. intro H. apply in_flat_map in H.
  destruct H as (b & Hb & Hin). apply in_map_iff in Hin.
  destruct Hin as (s & <- & _). exact Hb.
Qed.

(** X5: Create, then read: after a 201 from a database whose ids were issued
    by the counter, GET /bookings/:id with the id returned answers 200 with
    a row stored under that id, which has the party size and the total of
    the answer and "pending" in both statuses, joined with the name, type,
    location and image of its service. *)
Theorem created_booking_is_read_back :
  forall e req d resp out d' e2,
    ids_issued d ->
    post e req d = (resp, out, d') ->
    code resp = 201 ->
    select_err e2 = false ->
    exists bookingId totalAmount service b,
      json resp
        = BookingCreated "Booking created successfully" bookingId totalAmount
      /\
      select_service (toNumber (req_serviceId req)) (services d) = Some service
      /\
      get_booking e2 (JInt bookingId) d'
        = mkReply 200
            (BookingRow b (service_name service) (service_type service)
               (service_location service) (image_url service)) /\
      In b (bookings d') /\
      booking_id b = bookingId /\
      guests b = withDefault 1 (req_guests req) /\
      total_amount b = totalAmount /\
      status b = "pending" /\
      payment_status b = "pending".
Proof.
  intros e req d resp out d' e2 [Hle _] Hrun Hcode He2.
  destruct (BookingFacts.post_bookings_created _ _ _ _ _ _ _ Hrun Hcode)
    as (_ & _ & service & Hsel & _ & Hjson & ->).
  eexists. eexists. exists service.
  exists (mkBooking (bookings_seq d + 1) (toNumber (req_userId req))
            (toNumber (req_serviceId req)) (req_bookingDate req)
            (withDefault 1 (req_guests req))
            (price service * float_of_Z (withDefault 1 (req_guests req)))
            "pending" "pending" (now e) (now e)).
  split; [ exact Hjson | ]. split; [ exact Hsel | ].
  split; [ | simpl; repeat split; apply in_or_app; right; now left ].
  unfold get_booking. rewrite He2. simpl bookings. simpl services.
  rewrite joined_snoc, find_app_skip.
  - assert (Hfound : select_service (toNumber (req_serviceId req))
                       (update_slots (withDefault 1 (req_guests req))
                          (toNumber (req_serviceId req)) (services d))
                     = Some (set_available_slots service
                               (available_slots service
                                - withDefault 1 (req_guests req)))).
    { rewrite BookingFacts.select_after_update, Hsel. simpl.
      destruct (find_key_In _ service_id _ _ _ Hsel) as [_ Hid].
      apply Z.eqb_eq in Hid. now rewrite Hid. }
    apply find_filter_head in Hfound. destruct Hfound as [rest Hrest].
    simpl booking_service_id. rewrite Hrest. simpl.
    now rewrite Z.eqb_refl.
  - intros row Hin. apply joined_fst in Hin.
    rewrite Forall_forall in Hle. specialize (Hle _ Hin).
    simpl. apply Z.eqb_neq. lia.
Qed.

Lemma update_slots_core g k rows :
  map service_core (update_slots g k rows) = map service_core rows.
Proof.
  unfold update_slots. rewrite map_map. apply map_ext. intro s.
  now destruct (service_id s =? k).
Qed.

Lemma step_history (c : call) (d : db) :
  map service_core (services (step isISO8601 c d))
    = map service_core (services d) /\
  exists added,
    map booking_core (bookings (step isISO8601 c d))
      = map booking_core (bookings d) ++ added.
Proof.
  destruct (step_cases c d) as [(Hs & _ & Hc)|Hnew].
  - rewrite Hs, Hc. split; [ reflexivity | ].
    exists []. now rewrite app_nil_r.
  - destruct Hnew as (e & req & service & row & _ & _ & _ & _ & _ & ->).
    simpl. rewrite update_slots_core, map_app.
    split; [ reflexivity | now eexists ].
Qed.

Lemma run_history (cs : list call) :
  forall d,
    map service_core (services (run_calls isISO8601 cs d))
      = map service_core (services d) /\
    exists added,
      map booking_core (bookings (run_calls isISO8601 cs d))
        = map booking_core (bookings d) ++ added.
Proof.
  unfold run_calls.
  induction cs as [|c cs IH]; simpl; intro d.
  - split; [ reflexivity | ]. exists []. now rewrite app_nil_r.
  - destruct (IH (step isISO8601 c d)) as (Hs & added & Hb).
    destruct (step_history c d) as (Hs1 & added1 & Hb1).
    split; [ now rewrite Hs, Hs1 | ].
    exists (added1 ++ added). now rewrite Hb, Hb1, app_assoc.
Qed.

Lemma find_same_core (k : Z) (rows : list service) :
  forall rows',
    map service_core rows' = map service_core rows ->
    match find (fun s => service_id s =? k) rows with
    | Some s =>
        exists s', find (fun s => service_id s =? k) rows' = Some s' /\
                   service_core s' = service_core s
    | None => find (fun s => service_id s =? k) rows' = None
    end.
Proof.
  induction rows as [|s rows IH]; intros [|s' rows'] H; simpl in *;
    try discriminate; [ reflexivity | ].
  inversion H as [[H1 H2 H3 H4 H5 H6 H7 H8 Hrest]]. rewrite H1.
  destruct (service_id s =? k).
  - exists s'. split; [ reflexivity | ].
    unfold service_core. now rewrite H1, H2, H3, H4, H5, H6, H7, H8.
  - apply IH. exact Hrest.
Qed.

(** X11: History: over any run of requests the catalog keeps its rows and, in
    each, every column but [available_slots] (so no price changes), stored
    bookings keep their id, user, service, date, party size, total and
    creation time, and GET /services/:id answers 200 with those columns for
    an id the catalog had and 404 for any other. *)
Theorem history_is_kept :
  forall cs d e k,
    map service_core (services (run_calls isISO8601 cs d))
      = map service_core (services d) /\
    (exists added,
        map booking_core (bookings (run_calls isISO8601 cs d))
          = map booking_core (bookings d) ++ added) /\
    (select_err e = false ->
     match select_service k (services d) with
     | Some s =>
         exists s',
           get_service e (JInt k) (run_calls isISO8601 cs d)
             = mkReply 200 (ServiceRow s') /\
           service_core s' = service_core s
     | None =>
         get_service e (JInt k) (run_calls isISO8601 cs d)
           = mkReply 404 (Failure "Service not found")
     end).
Proof.
  intros cs d e k. destruct (run_history cs d) as [Hs Hb].
  split; [ exact Hs | ]. split; [ exact Hb | ].
  intro Hsel. unfold get_service, select_service. rewrite Hsel. simpl.
  assert (Hfind := find_same_core k (services d) _ Hs).
  destruct (find (fun s => service_id s =? k) (services d)) as [s|].
  - destruct Hfind as (s' & Hs' & Hcore). exists s'. now rewrite Hs'.
  - now rewrite Hfind.
Qed.

End Runs.

(** The beach resort after two bookings and a cancellation, and an id the
    catalog does not have. *)
Lemma history_is_kept_witness :
  (exists s',
      get_service quiet (JInt 1)
        (run_calls anyDate
           [ Create quiet (book 1 (JInt 2));
             SetStatus steady (JInt 1) "cancelled";
             Create quiet (book 1 (JInt 3)) ] seeded)
        = mkReply 200 (ServiceRow s') /\
      price s' = 299.99%float /\ available_slots s' = 95) /\
  get_service quiet (JInt 7)
    (run_calls anyDate [ Create quiet (book 1 (JInt 2)) ] seeded)
    = mkReply 404 (Failure "Service not found").
Proof.
  split.
  - destruct (history_is_kept anyDate
                [ Create quiet (book 1 (JInt 2));
                  SetStatus steady (JInt 1) "cancelled";
                  Create quiet (book 1 (JInt 3)) ] seeded quiet 1)
      as (_ & _ & Hread).
    destruct (Hread eq_refl) as (s' & Hget & Hcore).
    exists s'. split; [ exact Hget | ].
    simpl in Hget. inversion Hget; subst s'. split; reflexivity.
  - destruct (history_is_kept anyDate [ Create quiet (book 1 (JInt 2)) ]
                seeded quiet 7) as (_ & _ & Hread).
    exact (Hread eq_refl).
Defined.

(** The sample database, three more requests, and a booking for five. *)
Lemma booking_ids_fresh_witness :
  ids_issued twoBooked /\
  ids_issued
    (run_calls anyDate
       [ SetStatus steady (JInt 1) "cancelled"; Create quiet (book 2 JUndefined) ]
       twoBooked) /\
  exists bookingId totalAmount,
    json (fst (fst (post_bookings anyDate quiet (book 1 (JInt 5))
                      (run_calls anyDate
                         [ SetStatus steady (JInt 1) "cancelled";
                           Create quiet (book 2 JUndefined) ] twoBooked))))
      = BookingCreated "Booking created successfully" bookingId totalAmount /\
    bookingId = 4.
Proof.
  assert (Hd : ids_issued twoBooked).
  { split; simpl.
    - repeat constructor; simpl; lia.
    - repeat constructor; simpl; intuition discriminate. }
  destruct (booking_ids_fresh anyDate
              [ SetStatus steady (JInt 1) "cancelled";
                Create quiet (book 2 JUndefined) ]
              twoBooked quiet (book 1 (JInt 5)) Hd) as [Hrun Hnew].
  split; [ exact Hd | ]. split; [ exact Hrun | ].
  destruct (Hnew eq_refl) as (bookingId & totalAmount & Hjson & _).
  exists bookingId, totalAmount. split; [ exact Hjson | ].
  simpl in Hjson. now inversion Hjson.
Defined.

(** The beach resort of the seed data over a booking for two, its
    cancellation and a booking for three. *)
Lemma places_conserved_witness :
  exists n',
    slots_of 1
      (run_calls anyDate
         [ Create quiet (book 1 (JInt 2)); SetStatus steady (JInt 1) "cancelled";
           Create quiet (book 1 (JInt 3)) ] seeded) = Some n' /\
    n' + booked 1
           (run_calls anyDate
              [ Create quiet (book 1 (JInt 2));
                SetStatus steady (JInt 1) "cancelled";
                Create quiet (book 1 (JInt 3)) ] seeded)
    = 100 + booked 1 seeded.
Proof.
  exact (places_conserved anyDate
           [ Create quiet (book 1 (JInt 2));
             SetStatus steady (JInt 1) "cancelled";
             Create quiet (book 1 (JInt 3)) ] seeded 1 100 eq_refl).
Defined.

(** A third booking on the sample database, read back. *)
Lemma created_booking_is_read_back_witness :
  exists bookingId totalAmount service b,
    json (fst (fst (post_bookings anyDate quiet (book 2 (JInt 3)) twoBooked)))
      = BookingCreated "Booking created successfully" bookingId totalAmount /\
    select_service 2 (services twoBooked) = Some service /\
    get_booking quiet (JInt bookingId)
      (snd (post_bookings anyDate quiet (book 2 (JInt 3)) twoBooked))
      = mkReply 200
          (BookingRow b (service_name service) (service_type service)
             (service_location service) (image_url service)) /\
    In b (bookings (snd (post_bookings anyDate quiet (book 2 (JInt 3))
                           twoBooked))) /\
    booking_id b = bookingId /\
    guests b = 3 /\
    total_amount b = totalAmount /\
    status b = "pending" /\
    payment_status b = "pending".
Proof.
  assert (Hd : ids_issued twoBooked).
  { split; simpl.
    - repeat constructor; simpl; lia.
    - repeat constructor; simpl; intuition discriminate. }
  exact (created_booking_is_read_back anyDate quiet (book 2 (JInt 3)) twoBooked
           _ _ _ quiet Hd eq_refl eq_refl eq_refl).
Defined.

End BookingRoutes.

(** ** Payment service: what a payment stores, keys, and pay then refund *)

Module PaymentRuns.
Import Payment.

(** The validator's list and the table of gateways name the same methods. *)
Lemma gateway_known (m : string) :
  isIn ["stripe"; "paypal"; "square"] m = true ->
  exists g, paymentGateways m = Some g.
Proof.
  unfold isIn, paymentGateways. simpl.
  destruct (String.eqb m "stripe"); [ now eexists | ].
  destruct (String.eqb m "paypal"); [ now eexists | ].
  destruct (String.eqb m "square"); [ now eexists | discriminate ].
Qed.

Lemma validated_method (req : request) :
  validate req = [] ->
  isIn ["stripe"; "paypal"; "square"] (req_paymentMethod req) = true.
Proof.
  intro H. apply validationResult_nil in H. unfold validate in H.
  inversion H as [|? ? _ H1]; subst.
  inversion H1 as [|? ? _ H2]; subst.
  inversion H2 as [|? ? _ H3]; subst.
  inversion H3 as [|? ? Hm _]; subst.
  exact Hm.
Qed.


Section Facts.

Variable numberToString : float -> string.

Local Abbreviation pay := (post_process numberToString).
Local Abbreviation refund := (post_refund numberToString).

(** X6: Process, for a request whose fields are single values: when it passes
    validation its method, sent as text, is one the table of gateways has,
    so its only 500 is the failed INSERT, which stores nothing and calls
    nobody.  (A method sent as an array is not represented here.) *)
Theorem validated_payment_has_gateway :
  forall e req d,
    validate req = [] ->
    (exists g, paymentGateways (req_paymentMethod req) = Some g) /\
    (code (fst (fst (pay e req d))) = 500 ->
     pay e req d
       = (mkResponse 500 (Error "Failed to create payment record"), [], d)).
Proof.
  intros e req d Hval.
  destruct (gateway_known _ (validated_method req Hval)) as [g Hg].
  split; [ now exists g | ].
  unfold post_process. rewrite Hval, Hg. simpl.
  destruct (insert_err e || _); [ reflexivity | ].
  destruct (decline_rate g <? random e)%float; simpl; intro H; discriminate H.
Qed.


Lemma set_outcome_core p status response transaction t :
  payment_core (set_outcome p status response transaction t) = payment_core p.
Proof. reflexivity. Qed.

Lemma update_where_core hit status response t rows :
  map payment_core (update_where hit status response t rows)
  = map payment_core rows.
Proof.
  unfold update_where. rewrite map_map. apply map_ext. intro p.
  now destruct (hit p).
Qed.

Lemma update_by_id_core status response transaction t k rows :
  map payment_core (update_by_id status response transaction t k rows)
  = map payment_core rows.
Proof.
  unfold update_by_id. rewrite map_map. apply map_ext. intro p.
  now destruct (id p =? k).
Qed.

(** What one request does to the table: it keeps the core of every row and
    the counter, or it appends one row under the next id and a payment id
    no row had. *)
Lemma payment_step_cases (c : call) (d : db) :
  (payments_seq (step numberToString c d) = payments_seq d /\
   map payment_core (payments (step numberToString c d))
     = map payment_core (payments d)) \/
  (exists row,
      payments_seq (step numberToString c d) = payments_seq d + 1 /\
      id row = payments_seq d + 1 /\
      ~ In (payment_id row) (map payment_id (payments d)) /\
      map payment_core (payments (step numberToString c d))
        = map payment_core (payments d) ++ [payment_core row]).
Proof.
  destruct c as [e req|e paymentId reason]; simpl.
  - unfold post_process.
    destruct (negb (isEmpty (validate req))); [ left; auto | ].
    destruct (insert_err e) eqn:Hins; [ left; auto | ]. simpl.
    destruct (existsb _ (payments d)) eqn:Hfresh; [ left; auto | ].
    right.
    exists (mkPayment (payments_seq d + 1) (uuid_payment e)
              (toNumber (req_bookingId req)) (toNumber (req_userId req))
              (toFloat (req_amount req)) "USD" (req_paymentMethod req)
              "pending" None None (now e) (now e)).
    assert (Hnew : ~ In (uuid_payment e) (map payment_id (payments d))).
    { intro Hin. apply in_map_iff in Hin. destruct Hin as (p & Hp & Hin).
      assert (Hex : existsb (fun p => String.eqb (payment_id p)
                                        (uuid_payment e)) (payments d) = true).
      { apply existsb_exists. exists p. split; [ exact Hin | ].
        now apply String.eqb_eq. }
      congruence. }
    destruct (paymentGateways (req_paymentMethod req)) as [g|]; simpl.
    + destruct (decline_rate g <? random e)%float; simpl;
        (split; [ reflexivity | ]);
        (split; [ reflexivity | ]); (split; [ exact Hnew | ]);
        (destruct (update_err e);
         [ now rewrite map_app
         | rewrite update_by_id_core; now rewrite map_app ]).
    + split; [ reflexivity | ]. split; [ reflexivity | ].
      split; [ exact Hnew | ].
      rewrite update_where_core. now rewrite map_app.
  - left. unfold post_refund.
    destruct (select_err e); [ auto | ].
    destruct (select_completed paymentId (payments d)); [ | auto ].
    destruct (0.1 <? random e)%float; [ | auto ].
    destruct (update_err e); [ auto | ]. simpl.
    split; [ reflexivity | apply update_where_core ].
Qed.

Lemma same_payment_core {A : Type}
  (g : Z * string * Z * Z * float * string * string * Z -> A)
  (rows rows' : list payment) :
  map payment_core rows' = map payment_core rows ->
  map (fun p => g (payment_core p)) rows'
    = map (fun p => g (payment_core p)) rows.
Proof.
  intro H.
  rewrite <- (map_map payment_core g rows'), <- (map_map payment_core g rows).
  now rewrite H.
Qed.

Lemma core_ids (rows rows' : list payment) :
  map payment_core rows' = map payment_core rows ->
  map id rows' = map id rows /\ map payment_id rows' = map payment_id rows.
Proof.
  intro H. split.
  - exact (same_payment_core
             (fun c => fst (fst (fst (fst (fst (fst (fst c)))))))
             rows rows' H).
  - exact (same_payment_core
             (fun c => snd (fst (fst (fst (fst (fst (fst c)))))))
             rows rows' H).
Qed.

Lemma step_keys_issued (c : call) (d : db) :
  keys_issued d -> keys_issued (step numberToString c d).
Proof.
  intros (Hle & Hid & Hpid). unfold keys_issued.
  destruct (payment_step_cases c d) as [(Hq & Hc)|(row & Hq & Hrow & Hnew & Hc)].
  - destruct (core_ids _ _ Hc) as [Hi Hp]. rewrite Hq, Hi, Hp.
    split; [ | auto ].
    apply Forall_map with (f := id) (P := fun k => k <= payments_seq d).
    rewrite Hi. now apply Forall_map.
  - assert (Hc' : map payment_core (payments (step numberToString c d))
                  = map payment_core (payments d ++ [row]))
      by (now rewrite map_app).
    destruct (core_ids _ _ Hc') as [Hi Hp]. rewrite Hq, Hi, Hp, !map_app.
    simpl. split; [ | split ].
    + apply Forall_map with (f := id)
                            (P := fun k => k <= payments_seq d + 1).
      rewrite Hi, map_app. simpl. apply Forall_app. split.
      * apply Forall_map.
        eapply Forall_impl; [ | exact Hle ]. simpl. intros; lia.
      * constructor; [ lia | constructor ].
    + apply BookingRoutes.NoDup_snoc; [ exact Hid | ].
      intro Hin. apply in_map_iff in Hin. destruct Hin as (p & Hp' & Hin).
      rewrite Forall_forall in Hle. specialize (Hle p Hin). lia.
    + now apply BookingRoutes.NoDup_snoc.
Qed.

(** X8: Keys: over any run of payments and refunds, ids stay distinct and at
    most the counter, payment ids stay distinct, and every row that was
    stored keeps its id, payment id, booking, user, amount, currency, method
    and creation time. *)
Theorem payment_keys_kept :
  forall cs d,
    keys_issued d ->
    keys_issued (run_calls numberToString cs d) /\
    exists added,
      map payment_core (payments (run_calls numberToString cs d))
        = map payment_core (payments d) ++ added.
Proof.
  unfold run_calls.
  induction cs as [|c cs IH]; simpl; intros d Hd.
  - split; [ exact Hd | ]. exists []. now rewrite app_nil_r.
  - destruct (IH _ (step_keys_issued c d Hd)) as (Hk & added & Hadded).
    split; [ exact Hk | ].
    destruct (payment_step_cases c d) as [(_ & Hc)|(row & _ & _ & _ & Hc)].
    + exists added. now rewrite Hadded, Hc.
    + exists (payment_core row :: added).
      rewrite Hadded, Hc, <- app_assoc. reflexivity.
Qed.



Lemma unique_payment_id (rows : list payment) (p q : payment) :
  NoDup (map payment_id rows) ->
  In p rows -> In q rows -> payment_id p = payment_id q -> p = q.
Proof.
  induction rows as [|x rows IH]; simpl; intros Hnd Hp Hq Heq;
    [ contradiction | ].
  inversion Hnd as [|? ? Hx Hrest]; subst.
  destruct Hp as [->|Hp], Hq as [->|Hq]; auto.
  - exfalso. apply Hx. rewrite Heq. now apply in_map.
  - exfalso. apply Hx. rewrite <- Heq. now apply in_map.
Qed.

Lemma In_unhit (hit : payment -> bool) (f : payment -> payment)
  (rows : list payment) (p : payment) :
  In p rows -> hit p = false ->
  In p (map (fun x => if hit x then f x else x) rows).
Proof.
  intros Hin Hno. apply in_map_iff. exists p. now rewrite Hno.
Qed.

Lemma step_settled (c : call) (d : db) (p : payment) :
  keys_issued d ->
  In p (payments d) -> status p <> "completed" ->
  In p (payments (step numberToString c d)).
Proof.
  intros (Hle & _ & Hpid) Hin Hst.
  assert (Hnew : (id p =? payments_seq d + 1) = false).
  { rewrite Forall_forall in Hle. specialize (Hle p Hin).
    apply Z.eqb_neq. lia. }
  destruct c as [e req|e paymentId reason]; simpl.
  - unfold post_process.
    destruct (negb (isEmpty (validate req))); [ exact Hin | ].
    destruct (insert_err e || _); [ exact Hin | ].
    assert (Hin' : In p (payments d
                           ++ [mkPayment (payments_seq d + 1) (uuid_payment e)
                                 (toNumber (req_bookingId req))
                                 (toNumber (req_userId req))
                                 (toFloat (req_amount req)) "USD"
                                 (req_paymentMethod req) "pending" None None
                                 (now e) (now e)]))
      by (apply in_or_app; now left).
    destruct (paymentGateways (req_paymentMethod req)) as [g|]; simpl.
    + destruct (decline_rate g <? random e)%float; simpl;
        (destruct (update_err e); [ exact Hin' | ]);
        unfold update_by_id;
        now apply (In_unhit (fun x => id x =? payments_seq d + 1)).
    + unfold update_where.
      now apply (In_unhit (fun x => id x =? payments_seq d + 1)).
  - unfold post_refund.
    destruct (select_err e); [ exact Hin | ].
    destruct (select_completed paymentId (payments d)) as [q|] eqn:Hq;
      [ | exact Hin ].
    destruct (0.1 <? random e)%float; [ | exact Hin ].
    destruct (update_err e); [ exact Hin | ]. simpl.
    unfold update_where.
    apply (In_unhit (fun x => String.eqb (payment_id x) paymentId));
      [ exact Hin | ].
    destruct (String.eqb (payment_id p) paymentId) eqn:Hp; [ | reflexivity ].
    apply String.eqb_eq in Hp.
    destruct (PaymentFacts.select_completed_some _ _ _ Hq) as (Hqin & Hqid & Hqst).
    exfalso. apply Hst.
    rewrite (unique_payment_id _ p q Hpid Hin Hqin); [ exact Hqst | ].
    congruence.
Qed.

(** X10: Settled payments: a stored payment that is not "completed" (so one that
    failed, was refunded or was left pending) is never changed by any run of
    payments and refunds. *)
Theorem settled_payments_stay :
  forall cs d p,
    keys_issued d ->
    In p (payments d) -> status p <> "completed" ->
    In p (payments (run_calls numberToString cs d)).
Proof.
  unfold run_calls.
  induction cs as [|c cs IH]; simpl; intros d p Hd Hin Hst; [ exact Hin | ].
  apply IH; [ now apply step_keys_issued | | exact Hst ].
  now apply step_settled.
Qed.

End Facts.

(** A card payment after the completed payment of the sample, with a draw
    of 0.5 and with a draw of 0.05. *)
Lemma validated_payment_has_gateway_witness :
  exists g, paymentGateways (req_paymentMethod byCard) = Some g.
Proof.
  destruct (validated_payment_has_gateway showNumber lucky byCard onePaid
              eq_refl) as [Hg _].
  exact Hg.
Defined.


Lemma onePaid_keys : keys_issued onePaid.
Proof.
  repeat split; simpl; repeat constructor; simpl; try lia; tauto.
Qed.

Lemma oneRefunded_keys : keys_issued oneRefunded.
Proof.
  repeat split; simpl; repeat constructor; simpl; try lia; tauto.
Qed.

(** The sample payment, a second payment and the refund of both. *)
Lemma payment_keys_kept_witness :
  keys_issued
    (run_calls showNumber
       [ Process lucky byCard; RefundOf lucky "pay-1" None;
         RefundOf lucky "pay-2" None ] onePaid) /\
  map amount
    (payments
       (run_calls showNumber
          [ Process lucky byCard; RefundOf lucky "pay-1" None;
            RefundOf lucky "pay-2" None ] onePaid))
    = [amount paidRow; toFloat (req_amount byCard)].
Proof.
  destruct (payment_keys_kept showNumber
              [ Process lucky byCard; RefundOf lucky "pay-1" None;
                RefundOf lucky "pay-2" None ] onePaid onePaid_keys)
    as [Hkeys _].
  split; [ exact Hkeys | reflexivity ].
Defined.


(** The refunded sample payment over a new payment and two more refunds. *)
Lemma settled_payments_stay_witness :
  In refundedRow
    (payments
       (run_calls showNumber
          [ Process lucky byCard; RefundOf lucky "pay-1" None;
            RefundOf lucky "pay-2" None ] oneRefunded)).
Proof.
  apply (settled_payments_stay showNumber
           [ Process lucky byCard; RefundOf lucky "pay-1" None;
             RefundOf lucky "pay-2" None ] oneRefunded refundedRow
           oneRefunded_keys).
  - simpl. now left.
  - simpl. discriminate.
Defined.

End PaymentRuns.

(** ** Notification service: sending and reading *)

Module NotificationRuns.
Import Notification.

(** The validator's list and the table of templates name the same types. *)
Lemma template_known (t : string) :
  existsb (String.eqb t)
    ["booking_created"; "payment_success"; "payment_failed";
     "payment_refunded"] = true ->
  exists subject, emailTemplates t = Some subject.
Proof.
  unfold emailTemplates. simpl.
  destruct (String.eqb t "booking_created"); [ now eexists | ].
  destruct (String.eqb t "payment_success"); [ now eexists | ].
  destruct (String.eqb t "payment_failed"); [ now eexists | ].
  destruct (String.eqb t "payment_refunded"); [ now eexists | discriminate ].
Qed.

Lemma validated_type (req : send_request) :
  validate req = [] ->
  existsb (String.eqb (req_type req))
    ["booking_created"; "payment_success"; "payment_failed";
     "payment_refunded"] = true.
Proof.
  intro H. apply validationResult_nil in H. unfold validate in H.
  inversion H as [|? ? _ H1]; subst.
  inversion H1 as [|? ? Ht _]; subst.
  exact Ht.
Qed.

Section Facts.

Variable show : jvalue -> string.

Local Abbreviation send := (post_send show).

(** X12: Send, for a request whose fields are single values: one that fails
    validation is answered 400 and stores nothing; one that passes has a
    type, sent as text, for which there is a template and, when the INSERT
    succeeds and its ids are safe integers, is answered 200 whether or not
    the mail went out, and exactly one row is appended under the next id,
    "sent" when the draw is above 0.02 and "failed" otherwise, unread. *)
Theorem send_always_recorded :
  forall e req l,
    (validate req <> [] ->
     send e req l = (mkReply 400 (Errors (validate req)), l)) /\
    (validate req = [] ->
     insert_err e = false ->
     safe_integer (req_userId req) ->
     safe_integer (req_bookingId req) ->
     exists subject,
       emailTemplates (req_type req) = Some subject /\
       fst (send e req l)
         = mkReply 200
             (Sent (0.02 <? random e)%float (seq l + 1)
                (if (0.02 <? random e)%float
                 then "Notification sent successfully"
                 else "Failed to send notification")
                (req_type req)
                ("user" ++ show (req_userId req) ++ "@example.com")) /\
       snd (send e req l)
         = mkLog
             (rows l
                ++ [ mkNotification (seq l + 1) (toNumber (req_userId req))
                       (req_type req) subject (text (req_message req))
                       (int_or_null (req_bookingId req))
                       (or_null (req_paymentId req))
                       (if (0.02 <? random e)%float then "sent" else "failed")
                       (sent_time e) None ])
             (seq l + 1)).
Proof.
  intros e req l. unfold post_send. split.
  - intro Hbad. destruct (validate req); [ now elim Hbad | reflexivity ].
  - intros Hval Hins _ _.
    destruct (template_known _ (validated_type req Hval)) as [subject Hs].
    exists subject. rewrite Hval, Hs, Hins. simpl. auto.
Qed.

End Facts.

(** X13: Reading: in every case PUT /notifications/:id/read leaves all
    columns but [read_at] of every row; for an integer id, it answers 404
    and changes nothing when no notification has the id, and a row with
    another id is the row it was. *)
Theorem read_changes_read_at_only :
  forall e param rs,
    map notification_core (snd (put_read e param rs))
      = map notification_core rs /\
    (forall z,
        param = JInt z ->
        update_err e = false ->
        (forall n, In n rs -> id n <> z) ->
        put_read e param rs
          = (mkResponse 404 (Error "Notification not found"), rs)) /\
    (forall z n,
        param = JInt z -> In n rs -> id n <> z ->
        In n (snd (put_read e param rs))).
Proof.
  intros e param rs. split; [ apply NotificationFacts.put_read_core | ].
  split.
  - intros z -> He Hno. unfold put_read. rewrite He.
    assert (Hmiss : forall n, In n rs -> where_id (JInt z) n = false).
    { intros n Hn. simpl. apply Z.eqb_neq. now apply Hno. }
    rewrite (BookingRoutes.filter_no_hit (where_id (JInt z))) by exact Hmiss.
    rewrite (BookingRoutes.map_no_hit (where_id (JInt z))) by exact Hmiss.
    reflexivity.
  - intros z n -> Hin Hz. now apply NotificationFacts.put_read_other.
Qed.

(** A booking notice that goes out, a payment notice that does not, and a
    notice of a type there is no template for. *)
Lemma send_always_recorded_witness :
  map status
    (rows (snd (post_send digits bounced paidFor
                  (snd (post_send digits delivered created empty)))))
    = ["sent"; "failed"] /\
  reply_code (fst (post_send digits bounced paidFor empty)) = 200 /\
  post_send digits delivered
    (mkSendRequest (JInt 7) "newsletter" (TString "Hello") JUndefined
       TUndefined) empty
    = (mkReply 400 (Errors ["type"]), empty).
Proof.
  destruct (send_always_recorded digits bounced paidFor empty) as [_ Hok].
  destruct (Hok eq_refl eq_refl) as (subject & _ & Hreply & _);
    [ simpl; lia | simpl; lia | ].
  destruct (send_always_recorded digits delivered
              (mkSendRequest (JInt 7) "newsletter" (TString "Hello")
                 JUndefined TUndefined) empty) as [Hbad _].
  split; [ reflexivity | ].
  split; [ now rewrite Hreply | ].
  apply Hbad. discriminate.
Defined.

(** The unread sample notification and a request to mark notification 9. *)
Lemma read_changes_read_at_only_witness :
  put_read at_ten (JInt 9) unread
    = (mkResponse 404 (Error "Notification not found"), unread) /\
  map notification_core (snd (put_read at_ten (JInt 1) unread))
    = map notification_core unread.
Proof.
  destruct (read_changes_read_at_only at_ten (JInt 9) unread)
    as (_ & Hunknown & _).
  destruct (read_changes_read_at_only at_ten (JInt 1) unread) as (Hcore & _).
  split; [ | exact Hcore ].
  apply (Hunknown 9); [ reflexivity | reflexivity | ].
  simpl. intros n [<-|[]]. simpl. lia.
Defined.

End NotificationRuns.

(** ** User service: unique accounts, logging in and reading the profile *)

Module UserRuns.
Import User.

Lemma assign_id (updates : list assignment) :
  forall u, id (fold_left assign updates u) = id u.
Proof.
  induction updates as [|a updates IH]; simpl; intro u; [ reflexivity | ].
  rewrite IH. now destruct a.
Qed.

Lemma assign_email (updates : list assignment) :
  forall u,
    email (fold_left assign updates u) = email u \/
    In (SetEmail (email (fold_left assign updates u))) updates.
Proof.
  induction updates as [|a updates IH]; simpl; intro u; [ now left | ].
  destruct (IH (assign u a)) as [H|H]; [ | now right; right ].
  rewrite H. destruct a; simpl; auto.
Qed.

(** What the UNIQUE constraint leaves possible: the address an updated row
    takes is the address of no row with another id. *)
Lemma unique_respected (updates : list assignment) (key : Z)
  (rows : list user) (x u : user) :
  NoDup (map id rows) -> NoDup (map email rows) ->
  breaks_unique updates key rows = false ->
  In x rows -> id x = key -> In u rows -> id u <> key ->
  email u <> email (fold_left assign updates x).
Proof.
  intros Hid Hmail Hok Hx Hxk Hu Huk Heq.
  destruct (assign_email updates x) as [Hsame|Hset].
  - rewrite Hsame in Heq.
    assert (Hux : u = x).
    { clear - Hmail Hx Hu Heq. induction rows as [|r rows IH]; simpl in *;
        [ contradiction | ].
      inversion Hmail as [|? ? Hr Hrest]; subst.
      destruct Hu as [->|Hu], Hx as [->|Hx]; auto.
      - exfalso. apply Hr. rewrite Heq. now apply in_map.
      - exfalso. apply Hr. rewrite <- Heq. now apply in_map. }
    subst. contradiction.
  - unfold breaks_unique in Hok.
    assert (Hall : forall a, In a updates ->
                     match a with
                     | SetEmail v =>
                         existsb (fun u => id u =? key) rows
                         && existsb (fun u => negb (id u =? key)
                                              && String.eqb (email u) v) rows
                     | _ => false
                     end = false).
    { intros a Ha.
      destruct (match a with SetEmail _ => _ | _ => false end) eqn:Hm;
        [ | reflexivity ].
      assert (existsb
                (fun a => match a with
                          | SetEmail v =>
                              existsb (fun u => id u =? key) rows
                              && existsb (fun u => negb (id u =? key)
                                                   && String.eqb (email u) v)
                                   rows
                          | _ => false
                          end) updates = true)
        by (apply existsb_exists; now exists a).
      congruence. }
    specialize (Hall _ Hset). simpl in Hall.
    assert (H1 : existsb (fun u => id u =? key) rows = true)
      by (apply existsb_exists; exists x; split;
          [ exact Hx | now apply Z.eqb_eq ]).
    rewrite H1 in Hall. simpl in Hall.
    assert (H2 : existsb (fun u0 => negb (id u0 =? key)
                                    && String.eqb (email u0)
                                         (email (fold_left assign updates x)))
                   rows = true).
    { apply existsb_exists. exists u. split; [ exact Hu | ].
      apply andb_true_iff. split.
      - apply negb_true_iff. now apply Z.eqb_neq.
      - now apply String.eqb_eq. }
    congruence.
Qed.

Lemma update_user_ids (updates : list assignment) (key : Z) (rows : list user) :
  map id (update_user updates key rows) = map id rows.
Proof.
  unfold update_user. rewrite map_map. apply map_ext. intro u.
  destruct (id u =? key); [ apply assign_id | reflexivity ].
Qed.

Lemma update_user_emails (f : user -> user) (key : Z) (rows : list user) :
  NoDup (map id rows) -> NoDup (map email rows) ->
  (forall x u, In x rows -> id x = key -> In u rows -> id u <> key ->
               email u <> email (f x)) ->
  NoDup (map email (map (fun u => if id u =? key then f u else u) rows)).
Proof.
  induction rows as [|x rows IH]; simpl; intros Hid Hmail H;
    [ constructor | ].
  inversion Hid as [|? ? Hx Hids]; subst.
  inversion Hmail as [|? ? Hm Hmails]; subst.
  constructor.
  - intro Hin. apply in_map_iff in Hin. destruct Hin as (y' & Hy' & Hin).
    apply in_map_iff in Hin. destruct Hin as (y & <- & Hy).
    destruct (id x =? key) eqn:Hxk.
    + apply Z.eqb_eq in Hxk.
      assert (Hyk : id y <> key).
      { intro Hyk. apply Hx. rewrite Hxk, <- Hyk. now apply in_map. }
      apply Z.eqb_neq in Hyk as Hyk'. rewrite Hyk' in Hy'.
      apply (H x y); auto.
    + apply Z.eqb_neq in Hxk. destruct (id y =? key) eqn:Hyk.
      * apply Z.eqb_eq in Hyk. apply (H y x); auto.
      * apply Hm. rewrite <- Hy'. now apply in_map.
  - apply IH; auto.
Qed.

Section Facts.

Variable isEmail : string -> bool.
Variable normalizeEmail : string -> string.
Variable trim : string -> string.
Variable bcrypt_hash : string -> string -> string.
Variable jwt_sign : claims -> Z -> string.
Variable jwt_verify : string -> Z -> option claims.

Local Abbreviation register :=
  (post_register isEmail normalizeEmail trim bcrypt_hash jwt_sign).

Local Abbreviation update :=
  (put_profile isEmail normalizeEmail trim jwt_verify).

Local Abbreviation run :=
  (run_calls isEmail normalizeEmail trim bcrypt_hash jwt_sign jwt_verify).

(** A registration stores nothing, or it is answered 201 and appends one
    account under the next id with an address no account had. *)
Lemma post_register_shape e req d :
  (snd (register e req d) = d /\ code (fst (register e req d)) <> 201) \/
  (isEmail (reg_email req) = true /\
   find (fun u => String.eqb (email u) (normalizeEmail (reg_email req)))
     (users d) = None /\
   register e req d
     = (mkResponse 201
          (Registered "User created successfully"
             (jwt_sign
                (mkClaims (users_seq d + 1) (normalizeEmail (reg_email req))
                   (trim (reg_name req))) (now e))
             (users_seq d + 1) (normalizeEmail (reg_email req))
             (trim (reg_name req))),
        mkDb
          (users d
             ++ [ mkUser (users_seq d + 1) (normalizeEmail (reg_email req))
                    (bcrypt_hash (reg_password req) (salt e))
                    (trim (reg_name req)) (now e) (now e) ])
          (users_seq d + 1))).
Proof.
  unfold post_register.
  destruct (negb (isEmpty _)) eqn:Hval; [ left; split; [ | discriminate ]; reflexivity | ].
  apply isEmpty_nil, validationResult_nil in Hval.
  inversion Hval as [|? ? Hmail _]; subst. simpl in Hmail.
  destruct (select_err e); [ left; split; [ | discriminate ]; reflexivity | ].
  destruct (find _ (users d)) eqn:Hfind;
    [ left; split; [ | discriminate ]; reflexivity | ].
  destruct (insert_err e); [ left; split; [ | discriminate ]; reflexivity | ].
  right. auto.
Qed.

(** A profile update stores nothing, or it is answered 200 and runs an
    UPDATE that the UNIQUE constraint let through. *)
Lemma put_profile_shape e req d :
  snd (update e req d) = d \/
  (exists user updates,
      authenticateToken jwt_verify e (authorization req) = inr user /\
      code (fst (update e req d)) = 200 /\
      breaks_unique updates (userId user) (users d) = false /\
      snd (update e req d)
        = mkDb (update_user updates (userId user) (users d)) (users_seq d)).
Proof.
  unfold put_profile.
  destruct (authenticateToken jwt_verify e (authorization req))
    as [refusal|user]; [ now left | ].
  destruct (negb (isEmpty _)); [ now left | ].
  destruct (_ =? 0)%nat; [ now left | ].
  destruct (update_err e); [ now left | ]. simpl.
  destruct (breaks_unique _ _ _) eqn:Hok; [ now left | ].
  right. exists user. eexists. repeat split. exact Hok.
Qed.

Lemma step_accounts_keyed (c : call) (d : db) :
  accounts_keyed d ->
  accounts_keyed
    (step isEmail normalizeEmail trim bcrypt_hash jwt_sign jwt_verify c d).
Proof.
  intros (Hle & Hid & Hmail). destruct c as [e req|e req]; simpl.
  - destruct (post_register_shape e req d) as [[-> _]|(_ & Hnew & ->)];
      [ now repeat split | ].
    unfold accounts_keyed. simpl. rewrite !map_app. simpl.
    split; [ | split ].
    + apply Forall_app. split.
      * eapply Forall_impl; [ | exact Hle ]. simpl. intros; lia.
      * constructor; [ simpl; lia | constructor ].
    + apply BookingRoutes.NoDup_snoc; [ exact Hid | ].
      intro Hin. apply in_map_iff in Hin. destruct Hin as (u & Hu & Hin).
      rewrite Forall_forall in Hle. specialize (Hle u Hin). lia.
    + apply BookingRoutes.NoDup_snoc; [ exact Hmail | ].
      intro Hin. apply in_map_iff in Hin. destruct Hin as (u & Hu & Hin).
      apply (find_none _ _ Hnew) in Hin.
      rewrite Hu, String.eqb_refl in Hin. discriminate.
  - destruct (put_profile_shape e req d)
      as [->|(user & updates & _ & _ & Hok & ->)];
      [ now repeat split | ].
    unfold accounts_keyed. simpl. rewrite update_user_ids.
    split; [ | split; [ exact Hid | ] ].
    + apply Forall_map with (f := id) (P := fun k => k <= users_seq d).
      rewrite update_user_ids. now apply Forall_map.
    + unfold update_user. apply update_user_emails; auto.
      intros x u Hx Hxk Hu Huk.
      now apply (unique_respected updates (userId user) (users d)).
Qed.

(** X15: Accounts: over any run of registrations and profile updates, no two
    accounts share an address or an id, and no id is above the counter. *)
Theorem accounts_stay_unique :
  forall cs d, accounts_keyed d -> accounts_keyed (run cs d).
Proof.
  unfold run_calls.
  induction cs as [|c cs IH]; simpl; intros d Hd; [ exact Hd | ].
  apply IH. now apply step_accounts_keyed.
Qed.

Lemma split_one_word (s : string) : one_word s = true -> split s = [s].
Proof.
  induction s as [|c s IH]; simpl; intro H; [ reflexivity | ].
  apply andb_true_iff in H. destruct H as [Hc Hs].
  apply negb_true_iff in Hc. rewrite Hc, (IH Hs). reflexivity.
Qed.

(** The middleware on a header of the form "Bearer <token>". *)
Lemma authenticate_bearer e token :
  one_word token = true -> token <> "" ->
  authenticateToken jwt_verify e (Some ("Bearer " ++ token)%string)
  = match jwt_verify token (now e) with
    | None => inl (mkResponse 403 (Error "Invalid or expired token"))
    | Some user => inr user
    end.
Proof.
  intros Hw Hne. unfold authenticateToken.
  change (String.eqb ("Bearer " ++ token)%string "") with false. cbv iota.
  assert (Hsplit : split ("Bearer " ++ token)%string = ["Bearer"; token]).
  { simpl. now rewrite (split_one_word token Hw). }
  rewrite Hsplit. simpl.
  destruct (String.eqb token "") eqn:He; [ | reflexivity ].
  apply String.eqb_eq in He. contradiction.
Qed.

(** X16: No token: both profile routes answer 401 to a request without an
    Authorization header or with a header of a single word, and 403 to a
    "Bearer" header whose token does not verify; the update route then
    changes nothing. *)
Theorem profile_needs_token :
  forall e req d,
    (authorization req = None \/
     (exists h, authorization req = Some h /\ one_word h = true) ->
     get_profile jwt_verify e (authorization req) d
       = mkResponse 401 (Error "Access token required") /\
     update e req d = (mkResponse 401 (Error "Access token required"), d)) /\
    (forall token,
        authorization req = Some ("Bearer " ++ token)%string ->
        one_word token = true -> token <> "" ->
        jwt_verify token (now e) = None ->
        get_profile jwt_verify e (authorization req) d
          = mkResponse 403 (Error "Invalid or expired token") /\
        update e req d
          = (mkResponse 403 (Error "Invalid or expired token"), d)).
Proof.
  intros e req d. split.
  - intro H.
    assert (Hauth : authenticateToken jwt_verify e (authorization req)
                    = inl (mkResponse 401 (Error "Access token required"))).
    { destruct H as [->|(h & -> & Hw)]; [ reflexivity | ].
      unfold authenticateToken. rewrite (split_one_word h Hw). simpl.
      now destruct (String.eqb h ""). }
    unfold get_profile, put_profile. now rewrite Hauth.
  - intros token Hh Hw Hne Hbad.
    unfold get_profile, put_profile.
    now rewrite Hh, (authenticate_bearer e token Hw Hne), Hbad.
Qed.

(** The rows a profile update answered 200 leaves. *)
Lemma put_profile_rows e req d :
  code (fst (update e req d)) = 200 ->
  exists user,
    authenticateToken jwt_verify e (authorization req) = inr user /\
    users (snd (update e req d)) =
      map (fun u =>
             if id u =? userId user then
               mkUser (id u)
                 match req_email req with
                 | Some v => if String.eqb (normalizeEmail v) ""
                             then email u else normalizeEmail v
                 | None => email u
                 end
                 (password u)
                 match req_name req with
                 | Some v => trim v
                 | None => name u
                 end
                 (created_at u) (now e)
             else u) (users d).
Proof.
  unfold put_profile.
  destruct (authenticateToken jwt_verify e (authorization req))
    as [refusal|user] eqn:Hauth.
  { intro Hcode. exfalso. revert Hauth Hcode. unfold authenticateToken.
    repeat match goal with
      | |- context [match ?c with _ => _ end] => destruct c
      end; intro H; inversion H; subst; discriminate. }
  destruct (negb (isEmpty _)) eqn:Hval; [ discriminate | ].
  apply isEmpty_nil, validationResult_nil in Hval.
  inversion Hval as [|? ? Hname _]; subst. clear Hval. simpl in Hname.
  intro Hcode. exists user. split; [ reflexivity | ]. revert Hcode.
  destruct (req_name req) as [n|]; destruct (req_email req) as [m|]; simpl;
    try rewrite (UserFacts.isLength_2_nonempty _ Hname); simpl;
    try (destruct (String.eqb (normalizeEmail m) "") eqn:Hm; simpl);
    try discriminate;
    (destruct (update_err e || _); [ discriminate | ]);
    intros _; simpl; unfold update_user; apply map_ext; intro u;
    destruct (id u =? userId user); reflexivity.
Qed.

Lemma find_after_update_user (g : user -> user) (key : Z) (rows : list user) :
  (forall u, id (g u) = id u) ->
  find (fun u => id u =? key)
    (map (fun u => if id u =? key then g u else u) rows)
  = option_map g (find (fun u => id u =? key) rows).
Proof.
  intro Hg. induction rows as [|u rows IH]; simpl; [ reflexivity | ].
  destruct (id u =? key) eqn:Hu; simpl.
  - now rewrite Hg, Hu.
  - now rewrite Hu.
Qed.

(** X17: Update, then read: after a profile update answered 200 for an account
    the table holds, GET /profile with the same token answers 200 with the
    supplied name (trimmed) and address (normalised), the old value where
    none was supplied, and the id and creation time of the account. *)
Theorem profile_update_read_back :
  forall e req d e2 user row,
    authenticateToken jwt_verify e (authorization req) = inr user ->
    authenticateToken jwt_verify e2 (authorization req) = inr user ->
    code (fst (update e req d)) = 200 ->
    select_err e2 = false ->
    find (fun u => id u =? userId user) (users d) = Some row ->
    get_profile jwt_verify e2 (authorization req) (snd (update e req d))
      = mkResponse 200
          (Profile (id row)
             match req_email req with
             | Some v => if String.eqb (normalizeEmail v) ""
                         then email row else normalizeEmail v
             | None => email row
             end
             match req_name req with
             | Some v => trim v
             | None => name row
             end
             (created_at row)).
Proof.
  intros e req d e2 user row Hauth Hauth2 Hcode Hsel Hrow.
  destruct (put_profile_rows e req d Hcode) as (user' & Hauth' & Hrows).
  rewrite Hauth in Hauth'. inversion Hauth'; subst user'. clear Hauth'.
  unfold get_profile. rewrite Hauth2, Hsel, Hrows.
  rewrite (find_after_update_user
             (fun u =>
                mkUser (id u)
                  match req_email req with
                  | Some v => if String.eqb (normalizeEmail v) ""
                              then email u else normalizeEmail v
                  | None => email u
                  end
                  (password u)
                  match req_name req with
                  | Some v => trim v
                  | None => name u
                  end
                  (created_at u) (now e))) by reflexivity.
  rewrite Hrow. reflexivity.
Qed.

(** X18: Register, then read: after a registration answered 201 in a table whose
    ids were issued by the counter, GET /profile with the token returned
    (when it verifies to the payload that was signed) answers 200 with the
    id, address, name and creation time of the new account. *)
Theorem register_then_profile :
  forall e req d e2,
    Forall (fun u => id u <= users_seq d) (users d) ->
    code (fst (register e req d)) = 201 ->
    select_err e2 = false ->
    exists token,
      json (fst (register e req d))
        = Registered "User created successfully" token (users_seq d + 1)
            (normalizeEmail (reg_email req)) (trim (reg_name req)) /\
      (one_word token = true -> token <> "" ->
       jwt_verify token (now e2)
         = Some (mkClaims (users_seq d + 1) (normalizeEmail (reg_email req))
                   (trim (reg_name req))) ->
       get_profile jwt_verify e2 (Some ("Bearer " ++ token)%string)
         (snd (register e req d))
         = mkResponse 200
             (Profile (users_seq d + 1) (normalizeEmail (reg_email req))
                (trim (reg_name req)) (now e))).
Proof.
  intros e req d e2 Hle Hcode Hsel.
  destruct (post_register_shape e req d)
    as [[_ Hno]|(_ & _ & Hrun)]; [ contradiction | ].
  rewrite Hrun. cbn [fst snd json]. eexists. split; [ reflexivity | ].
  intros Hw Hne Hverify. unfold get_profile.
  rewrite (authenticate_bearer e2 _ Hw Hne), Hverify, Hsel.
  cbn [users userId].
  rewrite BookingRoutes.find_app_skip.
  - simpl. now rewrite Z.eqb_refl.
  - intros u Hu. rewrite Forall_forall in Hle. specialize (Hle u Hu).
    apply Z.eqb_neq. lia.
Qed.

Section Login.

Variable bcrypt_compare : string -> string -> bool.

(** X19: Register, then log in: after a registration answered 201, a login with
    the same address and a password that bcrypt accepts against the stored
    hash is answered 200 with the id, address and name of the registration;
    a password that bcrypt rejects is answered 401 "Invalid credentials",
    which is also the answer for an address no account has. *)
Theorem register_then_login :
  forall e req d e2,
    code (fst (register e req d)) = 201 ->
    select_err e2 = false ->
    (forall pw,
        bcrypt_compare pw (bcrypt_hash (reg_password req) (salt e)) = true ->
        post_login isEmail normalizeEmail bcrypt_compare jwt_sign e2
          (reg_email req) (Some pw) (snd (register e req d))
          = mkResponse 200
              (Registered "Login successful"
                 (jwt_sign
                    (mkClaims (users_seq d + 1)
                       (normalizeEmail (reg_email req)) (trim (reg_name req)))
                    (now e2))
                 (users_seq d + 1) (normalizeEmail (reg_email req))
                 (trim (reg_name req)))) /\
    (forall pw,
        bcrypt_compare pw (bcrypt_hash (reg_password req) (salt e)) = false ->
        post_login isEmail normalizeEmail bcrypt_compare jwt_sign e2
          (reg_email req) (Some pw) (snd (register e req d))
          = mkResponse 401 (Error "Invalid credentials")) /\
    (forall address pw,
        isEmail address = true ->
        find (fun u => String.eqb (email u) (normalizeEmail address))
          (users (snd (register e req d))) = None ->
        post_login isEmail normalizeEmail bcrypt_compare jwt_sign e2
          address (Some pw) (snd (register e req d))
          = mkResponse 401 (Error "Invalid credentials")).
Proof.
  intros e req d e2 Hcode Hsel.
  destruct (post_register_shape e req d)
    as [[_ Hno]|(Hmail & Hnew & Hrun)]; [ contradiction | ].
  rewrite Hrun. simpl snd.
  assert (Hfound :
            find (fun u => String.eqb (email u)
                             (normalizeEmail (reg_email req)))
              (users d
                 ++ [ mkUser (users_seq d + 1) (normalizeEmail (reg_email req))
                        (bcrypt_hash (reg_password req) (salt e))
                        (trim (reg_name req)) (now e) (now e) ])
            = Some (mkUser (users_seq d + 1) (normalizeEmail (reg_email req))
                      (bcrypt_hash (reg_password req) (salt e))
                      (trim (reg_name req)) (now e) (now e))).
  { rewrite BookingRoutes.find_app_skip.
    - simpl. now rewrite String.eqb_refl.
    - intros u Hu. exact (find_none _ _ Hnew u Hu). }
  split; [ | split ].
  - intros pw Hpw. unfold post_login. rewrite Hmail, Hsel. simpl.
    rewrite Hfound. simpl. now rewrite Hpw.
  - intros pw Hpw. unfold post_login. rewrite Hmail, Hsel. simpl.
    rewrite Hfound. simpl. now rewrite Hpw.
  - intros address pw Haddr Hnone. unfold post_login.
    rewrite Haddr, Hsel. simpl in *. now rewrite Hnone.
Qed.

End Login.

End Facts.

(** Al's table over the registration of Bea, a change of Al's address and a
    second registration of a@x.com. *)
Lemma accounts_stay_unique_witness :
  accounts_keyed oneUser /\
  accounts_keyed
    (run_calls hasAt asIs asIs salted sign verify
       [ Register calm bea; Update calm moveAl; Register calm again ] oneUser)
  /\
  map email
    (users
       (run_calls hasAt asIs asIs salted sign verify
          [ Register calm bea; Update calm moveAl; Register calm again ]
          oneUser))
    = ["al@x.com"; "b@x.com"; "a@x.com"].
Proof.
  assert (Hd : accounts_keyed oneUser).
  { repeat split; simpl; repeat constructor; simpl; try lia; tauto. }
  split; [ exact Hd | ]. split; [ | reflexivity ].
  exact (accounts_stay_unique hasAt asIs asIs salted sign verify
           [ Register calm bea; Update calm moveAl; Register calm again ]
           oneUser Hd).
Defined.

(** A request without a header and one with a token that does not verify. *)
Lemma profile_needs_token_witness :
  put_profile hasAt asIs asIs verify calm
    (mkProfileUpdate None (Some "Bob") None) oneUser
    = (mkResponse 401 (Error "Access token required"), oneUser) /\
  get_profile verify calm (Some "Bearer token-9") oneUser
    = mkResponse 403 (Error "Invalid or expired token").
Proof.
  destruct (profile_needs_token hasAt asIs asIs verify calm
              (mkProfileUpdate None (Some "Bob") None) oneUser) as [Hnone _].
  destruct (profile_needs_token hasAt asIs asIs verify calm
              (mkProfileUpdate (Some "Bearer token-9") None None) oneUser)
    as [_ Hbad].
  split.
  - destruct Hnone as [_ Hput]; [ now left | exact Hput ].
  - destruct (Hbad "token-9" eq_refl eq_refl) as [Hget _];
      [ discriminate | reflexivity | exact Hget ].
Defined.

(** Bea registers, then logs in with her password and with another. *)
Lemma register_then_login_witness :
  post_login hasAt asIs matches sign calm "b@x.com" (Some "secret9")
    (snd (post_register hasAt asIs asIs salted sign calm bea oneUser))
    = mkResponse 200
        (Registered "Login successful" "token-5" 2 "b@x.com" "Bea") /\
  post_login hasAt asIs matches sign calm "b@x.com" (Some "secret8")
    (snd (post_register hasAt asIs asIs salted sign calm bea oneUser))
    = mkResponse 401 (Error "Invalid credentials").
Proof.
  destruct (register_then_login hasAt asIs asIs salted sign matches calm bea
              oneUser calm eq_refl eq_refl) as (Hok & Hbad & _).
  split.
  - exact (Hok "secret9" eq_refl).
  - exact (Hbad "secret8" eq_refl).
Defined.

(** Al renamed to Bob, then read. *)
Lemma profile_update_read_back_witness :
  get_profile verify calm (authorization renameAl)
    (snd (put_profile hasAt asIs asIs verify calm renameAl oneUser))
    = mkResponse 200 (Profile 1 "a@x.com" "Bob" 1700000000).
Proof.
  exact (profile_update_read_back hasAt asIs asIs verify calm renameAl oneUser
           calm (mkClaims 1 "a@x.com" "Al") al eq_refl eq_refl eq_refl eq_refl
           eq_refl).
Defined.

(** Eve registers as the fifth account and reads her profile. *)
Lemma register_then_profile_witness :
  get_profile verify calm (Some "Bearer token-5")
    (snd (post_register hasAt asIs asIs salted sign calm eve fourUsers))
    = mkResponse 200 (Profile 5 "e@x.com" "Eve" (now calm)).
Proof.
  assert (Hle : Forall (fun u => id u <= users_seq fourUsers)
                  (users fourUsers)).
  { simpl. repeat constructor; simpl; lia. }
  destruct (register_then_profile hasAt asIs asIs salted sign verify calm eve
              fourUsers calm Hle eq_refl eq_refl) as (token & Hjson & Hread).
  simpl in Hjson. inversion Hjson; subst token.
  apply Hread; [ reflexivity | discriminate | reflexivity ].
Defined.

End UserRuns.
